(** * Spike-sorting INTAN-to-PDF: trigger detection, probe alignment, pipeline

    A shallow embedding of the Python classes [Trigger],
    [TimestampsParameters], [Probe], [Protocol], [Sorter], [IntanFile] and
    [Pipeline], followed by the properties of trigger detection, probe
    alignment and pipeline orchestration.

    Conventions of the embedding:
    - Python floats (thresholds, frequencies, timestamps) are exact
      rationals [Q]; raw ADC samples and indices are integers [Z].
    - A method [self.m(args)] is a function from the object and the store
      to the updated object, the updated store and an [outcome]: what the
      method returned or the exception it raised. Mutations made before a
      [raise] stay visible, as in Python.
    - Mutable objects that are shared between the caller and a method
      (the probe's DataFrame, the protocol's dictionaries) live in a store
      and are handled through references.
    - The entry points of SpikeInterface, probeinterface, pandas and [os]
      are the fields of the class [Library]: the development holds for
      every implementation of them. *)

From Stdlib Require Import ZArith QArith Lqa Lia Bool.
From Stdlib Require Import Sorting.Sorted Sorting.Permutation.
From stdpp Require Import gmap strings list pretty sorting.

Local Open Scope Z_scope.
Local Open Scope string_scope.

(** ** Python values, exceptions, outcomes *)

(** The cells that can stand for an identifier: [str] or [int]. *)
Inductive pyval : Type :=
  | PyStr (s : string)
  | PyInt (z : Z).

#[global] Instance pyval_eq_dec : EqDecision pyval.
Proof. solve_decision. Defined.

(** [str(v)]. *)
Definition py_str (v : pyval) : string :=
  match v with
  | PyStr s => s
  | PyInt z => pretty z
  end.

(** [needle in hay] on strings. *)
Fixpoint str_prefix (p s : string) : bool :=
  match p, s with
  | EmptyString, _ => true
  | String a p', String b s' => if decide (a = b) then str_prefix p' s' else false
  | String _ _, EmptyString => false
  end.

Fixpoint str_in (needle hay : string) : bool :=
  str_prefix needle hay ||
  match hay with
  | EmptyString => false
  | String _ hay' => str_in needle hay'
  end.

Inductive exn_class : Type :=
  | ValueError
  | RuntimeError
  | KeyError
  | IndexError
  | LibraryError (name : string).

#[global] Instance exn_class_eq_dec : EqDecision exn_class.
Proof. solve_decision. Defined.

#[local] Set Warnings "-register-all".

(** An exception instance: class, [str(exc)], and [__cause__]
    (set by [raise ... from exc]). *)
Inductive exn : Type :=
  | Exn (cls : exn_class) (msg : string) (cause : option exn).

Definition exn_cls (e : exn) : exn_class := let 'Exn c _ _ := e in c.
Definition exn_msg (e : exn) : string := let 'Exn _ m _ := e in m.
Definition exn_cause (e : exn) : option exn := let 'Exn _ _ c := e in c.

(** [isinstance(e, ValueError)], as tested by [except ValueError]. *)
Definition is_ValueError (e : exn) : bool :=
  match exn_cls e with ValueError => true | _ => false end.

Inductive outcome (A : Type) : Type :=
  | Return (a : A)
  | Raise (e : exn).
Arguments Return {A} a.
Arguments Raise {A} e.

(** State-and-exception computations: the state survives a [Raise]. *)
Definition M (S A : Type) : Type := S -> S * outcome A.

Definition ret {S A} (a : A) : M S A := fun s => (s, Return a).
Definition raise_exn {S A} (e : exn) : M S A := fun s => (s, Raise e).
Definition bind {S A B} (m : M S A) (k : A -> M S B) : M S B :=
  fun s => match m s with
           | (s', Return a) => k a s'
           | (s', Raise e) => (s', Raise e)
           end.
Definition get_state {S} : M S S := fun s => (s, Return s).
Definition modify {S} (f : S -> S) : M S unit := fun s => (f s, Return tt).
Definition lift_outcome {S A} (o : outcome A) : M S A := fun s => (s, o).

Notation "x <- m ;; k" := (bind m (fun x => k))
  (at level 100, m at next level, right associativity).
Notation "m ;;; k" := (bind m (fun _ => k))
  (at level 100, right associativity).

(** Python dictionaries keep insertion order: association lists in which
    a key occurs at most once. *)
Abbreviation dict V := (list (string * V)) (only parsing).

Fixpoint dict_get {V} (k : string) (d : dict V) : option V :=
  match d with
  | [] => None
  | (k', v) :: d' => if decide (k = k') then Some v else dict_get k d'
  end.

(** [d[k] = v]: overwrite in place, or append at the end. *)
Fixpoint dict_set {V} (k : string) (v : V) (d : dict V) : dict V :=
  match d with
  | [] => [(k, v)]
  | (k', v') :: d' =>
      if decide (k = k') then (k, v) :: d' else (k', v') :: dict_set k v d'
  end.

Definition dict_keys {V} (d : dict V) : list string := d.*1.

(** ** TriggerClass.py, TimestampsClass.py *)

Record Trigger : Type := mkTrigger {
  threshold : Q;
  edge : Z;
  min_interval : Q
}.

Record TimestampsParameters : Type := mkTimestampsParameters {
  trigger : Trigger;
  trigger_channel_index : Z
}.

(** ** numpy on one-dimensional traces *)

(** What [get_traces(channel_ids=[c]).squeeze()] gives: the (n, 1) block
    squeezed, which is zero-dimensional when n = 1. *)
Inductive ndarray : Type :=
  | Array0 (x : Z)
  | Array1 (xs : list Z).

Definition squeeze (column : list Z) : ndarray :=
  match column with
  | [x] => Array0 x
  | _ => Array1 column
  end.

(** [(signal < threshold).astype(int)] *)
Definition under (thr : Q) (x : Z) : Z :=
  if Qlt_le_dec (inject_Z x) thr then 1 else 0.

Definition under_threshold_int (signal : ndarray) (thr : Q) : ndarray :=
  match signal with
  | Array0 x => Array0 (under thr x)
  | Array1 xs => Array1 (under thr <$> xs)
  end.

(** [np.diff(a)]: [a[i+1] - a[i]]. *)
Fixpoint diff1 (xs : list Z) : list Z :=
  match xs with
  | x :: (y :: _) as t => (y - x) :: diff1 t
  | _ => []
  end.

Definition np_diff (a : ndarray) : outcome (list Z) :=
  match a with
  | Array0 _ =>
      Raise (Exn ValueError
                 "diff requires input that is at least one dimensional" None)
  | Array1 xs => Return (diff1 xs)
  end.

(** [np.where(d == v)[0]]: ascending indices of the entries equal to [v],
    counted from [start]. *)
Fixpoint where_eq_from (start : Z) (v : Z) (d : list Z) : list Z :=
  match d with
  | [] => []
  | x :: d' =>
      if decide (x = v) then start :: where_eq_from (start + 1) v d'
      else where_eq_from (start + 1) v d'
  end.

Definition np_where_eq (d : list Z) (v : Z) : list Z := where_eq_from 0 v d.

(** [trigger_samples / frequency] *)
Definition samples_to_seconds (frequency : Q) (samples : list Z) : list Q :=
  (fun i => (inject_Z i / frequency)%Q) <$> samples.

(** Body of the [for ts in trigger_timestamps[1:]] loop. [kept] is never
    empty there; [kept[-1]] is its last element. *)
Definition debounce_step (min_interval : Q) (kept : list Q) (ts : Q) : list Q :=
  match last kept with
  | Some prev =>
      if Qle_bool min_interval (ts - prev)%Q then kept ++ [ts] else kept
  | None => kept
  end.

(** Lines 144-150: the minimum-interval filter. *)
Definition min_interval_filter (min_interval : Q) (timestamps : list Q) : list Q :=
  if Qlt_le_dec 0 min_interval then
    match timestamps with
    | first :: rest => fold_left (debounce_step min_interval) rest [first]
    | [] => timestamps
    end
  else timestamps.


(** ** Recordings, data frames, the store *)

(** A SpikeInterface recording extractor, as far as this code reads it:
    the channels in order, each with its id and its raw sample column, the
    sampling frequency and the number of segments. *)
Record Recording : Type := mkRecording {
  rec_channels : list (pyval * list Z);
  rec_sampling_frequency : Q;
  rec_num_segments : Z
}.

Definition get_channel_ids (r : Recording) : list pyval := (rec_channels r).*1.
Definition get_sampling_frequency (r : Recording) : Q := rec_sampling_frequency r.
Definition get_num_channels (r : Recording) : Z := Z.of_nat (length (rec_channels r)).
Definition get_num_segments (r : Recording) : Z := rec_num_segments r.

(** [get_traces(channel_ids=[cid], start_frame=None, end_frame=None)]:
    the sample column of the channel with that id. *)
Definition get_traces (r : Recording) (cid : pyval) : list Z :=
  match list_find (fun c => c.1 = cid) (rec_channels r) with
  | Some (_, c) => c.2
  | None => []
  end.

(** One row of the probe table built by [to_dataframe(complete=True)]. *)
Record Row : Type := mkRow {
  contact_ids : pyval;
  device_channel_indices : Z;
  other_columns : list (string * pyval)
}.

Abbreviation DataFrame := (list Row) (only parsing).

(** Values of a step's parameter dictionary. *)
Inductive param_val : Type :=
  | PNum (q : Q)
  | PStr (s : string)
  | PArray (a : list Q).

Abbreviation StepParams := (dict param_val) (only parsing).

Definition loc : Type := positive.

(** The store: the shared mutable objects by reference, one region per
    class of object, and the files written to disk.
    - [frames]: pandas DataFrames;
    - [params_dicts]: the dictionaries [Protocol.params], from
      ['preprocessing'] / ['postprocessing'] to a step mapping;
    - [step_dicts]: the step mappings, from a step name to its parameters. *)
Record Store : Type := mkStore {
  frames : gmap loc DataFrame;
  params_dicts : gmap loc (dict loc);
  step_dicts : gmap loc (dict StepParams);
  files : gmap string DataFrame
}.

Definition set_frames (f : gmap loc DataFrame) (st : Store) : Store :=
  mkStore f (params_dicts st) (step_dicts st) (files st).
Definition set_params_dicts (p : gmap loc (dict loc)) (st : Store) : Store :=
  mkStore (frames st) p (step_dicts st) (files st).
Definition set_step_dicts (s : gmap loc (dict StepParams)) (st : Store) : Store :=
  mkStore (frames st) (params_dicts st) s (files st).
Definition set_files (f : gmap string DataFrame) (st : Store) : Store :=
  mkStore (frames st) (params_dicts st) (step_dicts st) f.

Definition empty_store : Store := mkStore ∅ ∅ ∅ ∅.

(** A reference that is bound to nothing cannot arise in Python; the
    embedding reports it as an exception of its own. *)
Definition dangling : exn := Exn (LibraryError "dangling reference") "" None.

(** ** ProbeClass.py *)

Record Probe : Type := mkProbe {
  probe_file_path : string;
  _dataframe : loc
}.

(** ** pandas on the probe table *)

(** [df["contact_ids"].astype(str)], put back as the column. *)
Definition contact_ids_astype_str (df : DataFrame) : DataFrame :=
  (fun r => mkRow (PyStr (py_str (contact_ids r)))
                  (device_channel_indices r) (other_columns r)) <$> df.

(** [df[df["contact_ids"].isin(values)]] *)
Definition filter_isin (values : list pyval) (df : DataFrame) : DataFrame :=
  filter (fun r => contact_ids r ∈ values) df.

(** [df.drop_duplicates(subset="contact_ids")]: the first row of each
    contact id stays. *)
Fixpoint drop_duplicates_from (seen : list pyval) (df : DataFrame) : DataFrame :=
  match df with
  | [] => []
  | r :: df' =>
      if decide (contact_ids r ∈ seen) then drop_duplicates_from seen df'
      else r :: drop_duplicates_from (contact_ids r :: seen) df'
  end.

Definition drop_duplicates (df : DataFrame) : DataFrame :=
  drop_duplicates_from [] df.

(** [df["device_channel_indices"] = range(len(df))], counted from [start]. *)
Fixpoint renumber_from (start : Z) (df : DataFrame) : DataFrame :=
  match df with
  | [] => []
  | r :: df' =>
      mkRow (contact_ids r) start (other_columns r) :: renumber_from (start + 1) df'
  end.

Definition renumber (df : DataFrame) : DataFrame := renumber_from 0 df.

(** The [ValueError] message of [associate_probe]. *)
Definition mismatch_message (n_probe_contacts n_recording_channels : Z) : string :=
  "Incohérence entre le nombre de contacts du probe (" +:+ pretty n_probe_contacts
  +:+ ") et le nombre de canaux de l'enregistrement ("
  +:+ pretty n_recording_channels
  +:+ "). Vérifiez le mapping des 'contact_ids' ou la sélection des canaux.".

(** The [ValueError] message of [generate_trigger_timestamps]. *)
Definition out_of_range_message (channel_index n_channels : Z) : string :=
  "trigger_channel_index=" +:+ pretty channel_index +:+ " is out of range for "
  +:+ pretty n_channels +:+ " ADC channels.".


(** ** External collaborators *)

(** What [IntanFile._probe] can hold: the wrapper assigned on entry of
    [associate_probe], or the probeinterface object assigned at its end. *)
Inductive probe_slot (InterfaceProbe : Type) : Type :=
  | WrapperProbe (p : Probe)
  | AlignedProbe (p : InterfaceProbe).
Arguments WrapperProbe {InterfaceProbe} p.
Arguments AlignedProbe {InterfaceProbe} p.

(** The entry points of SpikeInterface, probeinterface, pandas and [os]
    this code calls, and the objects it only passes around. *)
Class Library : Type := {
  InterfaceProbe : Type;
  Sorting : Type;
  Analyzer : Type;
  (** [se.read_split_intan_files(folder, mode="concatenate", stream_name=...)] *)
  read_split_intan_files : string -> string -> outcome Recording;
  (** [spre.unsigned_to_signed] *)
  unsigned_to_signed : Recording -> outcome Recording;
  (** [df.sort_values(by="device_channel_indices")]: pandas sorts with a
      quicksort by default, so the order of rows with equal keys is left
      to the implementation. *)
  sort_values : DataFrame -> DataFrame;
  (** [ProbeI.Probe.from_dataframe] *)
  from_dataframe : DataFrame -> outcome InterfaceProbe;
  (** [recording.set_probe(probe)] *)
  set_probe : Recording -> probe_slot InterfaceProbe -> outcome Recording;
  (** [os.path.join] *)
  os_path_join : string -> string -> string;
  (** [spre.apply_preprocessing_pipeline(recording, steps)] *)
  apply_preprocessing_pipeline : Recording -> dict StepParams -> outcome Recording;
  (** [ss.run_sorter(sorter_name, recording, folder, remove_existing_folder=True)] *)
  run_sorter : string -> Recording -> string -> outcome Sorting;
  (** [scur.remove_duplicated_spikes] *)
  remove_duplicated_spikes : Sorting -> outcome Sorting;
  (** [si.create_sorting_analyzer(recording, sorting, folder,
      format='binary_folder', overwrite=True)] *)
  create_sorting_analyzer : Recording -> Sorting -> string -> outcome Analyzer;
  (** [analyzer.compute(steps)]: the analyzer with its extensions computed. *)
  compute : Analyzer -> dict StepParams -> outcome Analyzer
}.

Section Embedding.

Context {L : Library}.

(** ** IntanClass.py *)

Record IntanFile : Type := mkIntanFile {
  folder_path : string;
  trigger_timestamps : list Q;
  frequency : Q;
  channel_ids : list pyval;
  number_of_channels : Z;
  number_of_segments : Z;
  _digital_input_channel_recording : Recording;
  _adc_channel_recording : Recording;
  _amplifier_channel_recording : Recording;
  _signed_amplifier_channel_recording : Recording;
  _pre_processed_recording : option Recording;
  _pre_processed_signed_amplifier_channel_recording : option Recording;
  _probe : option (probe_slot InterfaceProbe);
  _timestamps_parameters : option TimestampsParameters;
  _computed_analyzer_result : option Analyzer;
  _sorting_dedup : option Sorting
}.

Definition set_trigger_timestamps (v : list Q) (s : IntanFile) : IntanFile :=
  mkIntanFile (folder_path s) v (frequency s) (channel_ids s)
    (number_of_channels s) (number_of_segments s)
    (_digital_input_channel_recording s) (_adc_channel_recording s)
    (_amplifier_channel_recording s) (_signed_amplifier_channel_recording s)
    (_pre_processed_recording s)
    (_pre_processed_signed_amplifier_channel_recording s) (_probe s)
    (_timestamps_parameters s) (_computed_analyzer_result s) (_sorting_dedup s).

Definition set_signed_amplifier_channel_recording (v : Recording) (s : IntanFile)
  : IntanFile :=
  mkIntanFile (folder_path s) (trigger_timestamps s) (frequency s) (channel_ids s)
    (number_of_channels s) (number_of_segments s)
    (_digital_input_channel_recording s) (_adc_channel_recording s)
    (_amplifier_channel_recording s) v
    (_pre_processed_recording s)
    (_pre_processed_signed_amplifier_channel_recording s) (_probe s)
    (_timestamps_parameters s) (_computed_analyzer_result s) (_sorting_dedup s).

Definition set_pre_processed_signed_amplifier_channel_recording
  (v : option Recording) (s : IntanFile) : IntanFile :=
  mkIntanFile (folder_path s) (trigger_timestamps s) (frequency s) (channel_ids s)
    (number_of_channels s) (number_of_segments s)
    (_digital_input_channel_recording s) (_adc_channel_recording s)
    (_amplifier_channel_recording s) (_signed_amplifier_channel_recording s)
    (_pre_processed_recording s) v (_probe s)
    (_timestamps_parameters s) (_computed_analyzer_result s) (_sorting_dedup s).

Definition set_probe_field (v : option (probe_slot InterfaceProbe)) (s : IntanFile) : IntanFile :=
  mkIntanFile (folder_path s) (trigger_timestamps s) (frequency s) (channel_ids s)
    (number_of_channels s) (number_of_segments s)
    (_digital_input_channel_recording s) (_adc_channel_recording s)
    (_amplifier_channel_recording s) (_signed_amplifier_channel_recording s)
    (_pre_processed_recording s)
    (_pre_processed_signed_amplifier_channel_recording s) v
    (_timestamps_parameters s) (_computed_analyzer_result s) (_sorting_dedup s).

Definition set_timestamps_parameters (v : option TimestampsParameters)
  (s : IntanFile) : IntanFile :=
  mkIntanFile (folder_path s) (trigger_timestamps s) (frequency s) (channel_ids s)
    (number_of_channels s) (number_of_segments s)
    (_digital_input_channel_recording s) (_adc_channel_recording s)
    (_amplifier_channel_recording s) (_signed_amplifier_channel_recording s)
    (_pre_processed_recording s)
    (_pre_processed_signed_amplifier_channel_recording s) (_probe s)
    v (_computed_analyzer_result s) (_sorting_dedup s).

Definition set_computed_analyzer_result (v : option Analyzer) (s : IntanFile)
  : IntanFile :=
  mkIntanFile (folder_path s) (trigger_timestamps s) (frequency s) (channel_ids s)
    (number_of_channels s) (number_of_segments s)
    (_digital_input_channel_recording s) (_adc_channel_recording s)
    (_amplifier_channel_recording s) (_signed_amplifier_channel_recording s)
    (_pre_processed_recording s)
    (_pre_processed_signed_amplifier_channel_recording s) (_probe s)
    (_timestamps_parameters s) v (_sorting_dedup s).

Definition set_sorting_dedup (v : option Sorting) (s : IntanFile) : IntanFile :=
  mkIntanFile (folder_path s) (trigger_timestamps s) (frequency s) (channel_ids s)
    (number_of_channels s) (number_of_segments s)
    (_digital_input_channel_recording s) (_adc_channel_recording s)
    (_amplifier_channel_recording s) (_signed_amplifier_channel_recording s)
    (_pre_processed_recording s)
    (_pre_processed_signed_amplifier_channel_recording s) (_probe s)
    (_timestamps_parameters s) (_computed_analyzer_result s) v.

(** [IntanFile.__init__] with [_load_recording]: the three streams are
    read, the metadata comes from the amplifier stream. *)
Definition IntanFile_init (folder : string) : outcome IntanFile :=
  match read_split_intan_files folder "Stim channel" with
  | Raise e => Raise e
  | Return dig =>
  match read_split_intan_files folder "USB board ADC input channel" with
  | Raise e => Raise e
  | Return adc =>
  match read_split_intan_files folder "RHS2000 amplifier channel" with
  | Raise e => Raise e
  | Return amp =>
  match unsigned_to_signed amp with
  | Raise e => Raise e
  | Return signed =>
      Return (mkIntanFile folder [] (get_sampling_frequency amp)
                (get_channel_ids amp) (get_num_channels amp)
                (get_num_segments amp) dig adc amp signed
                None None None None None None)
  end end end end.

Definition len {A} (l : list A) : Z := Z.of_nat (length l).

(** [IntanFile.generate_trigger_timestamps(timestamps_parameters)].
    The final [print] is left out. *)
Definition generate_trigger_timestamps (timestamps_parameters : TimestampsParameters)
  : M IntanFile unit :=
  modify (set_timestamps_parameters (Some timestamps_parameters)) ;;;
  self <- get_state ;;
  let adc := _adc_channel_recording self in
  let ids := get_channel_ids adc in
  let channel_index := trigger_channel_index timestamps_parameters in
  if ((channel_index <? 0) || (channel_index >=? len ids))%Z then
    raise_exn (Exn ValueError (out_of_range_message channel_index (len ids)) None)
  else
    match ids !! Z.to_nat channel_index with
    | None => raise_exn (Exn IndexError "index out of bounds" None)
    | Some cid =>
        let signal := squeeze (get_traces adc cid) in
        let frequency := get_sampling_frequency adc in
        let signal_under_threshold :=
          under_threshold_int signal (threshold (trigger timestamps_parameters)) in
        d <- lift_outcome (np_diff signal_under_threshold) ;;
        let trigger_samples := np_where_eq d (edge (trigger timestamps_parameters)) in
        let timestamps := samples_to_seconds frequency trigger_samples in
        let timestamps :=
          min_interval_filter (min_interval (trigger timestamps_parameters))
                              timestamps in
        modify (set_trigger_timestamps timestamps)
    end.

(** Lines 169-186 of [associate_probe] on the table read through the
    probe's reference, after its [contact_ids] column has been
    normalised: filter, drop duplicates, compare the counts, sort,
    renumber. *)
Definition align_dataframe (channel_ids : list pyval) (probe_df : DataFrame)
  : outcome DataFrame :=
  let probe_df :=
    filter_isin ((fun ch => PyStr (py_str ch)) <$> channel_ids) probe_df in
  let probe_df := drop_duplicates probe_df in
  let n_probe_contacts := len probe_df in
  let n_recording_channels := len channel_ids in
  if decide (n_probe_contacts <> n_recording_channels) then
    Raise (Exn ValueError
             (mismatch_message n_probe_contacts n_recording_channels) None)
  else
    let probe_df := sort_values probe_df in
    Return (renumber probe_df).

(** [IntanFile.associate_probe(probe)] on the session and the store. *)
Definition associate_probe (probe : Probe) : M (IntanFile * Store) unit :=
  modify (fun '(self, st) => (set_probe_field (Some (WrapperProbe probe)) self, st)) ;;;
  s <- get_state ;;
  let self := s.1 in
  let st := s.2 in
  match frames st !! _dataframe probe with
  | None => raise_exn dangling
  | Some df =>
      (* probe_df["contact_ids"] = probe_df["contact_ids"].astype(str) *)
      let df := contact_ids_astype_str df in
      modify (fun '(self, st) =>
                (self, set_frames (<[_dataframe probe := df]> (frames st)) st)) ;;;
      probe_df <- lift_outcome (align_dataframe (channel_ids self) df) ;;
      (* probe_df.to_csv("probe_dataframe_dump.txt", sep="\t", index=False) *)
      modify (fun '(self, st) =>
                (self, set_files (<["probe_dataframe_dump.txt" := probe_df]>
                                    (files st)) st)) ;;;
      p <- lift_outcome (from_dataframe probe_df) ;;
      modify (fun '(self, st) => (set_probe_field (Some (AlignedProbe p)) self, st)) ;;;
      rec <- lift_outcome (set_probe (_signed_amplifier_channel_recording self)
                                     (AlignedProbe p)) ;;
      modify (fun '(self, st) =>
                (set_signed_amplifier_channel_recording rec self, st))
  end.

(** ** ProtocolClass.py, SorterClass.py *)

Record Protocol : Type := mkProtocol {
  _min_freq : Q;
  _max_freq : Q;
  protocol_file_path : string;
  params : loc
}.

Record Sorter : Type := mkSorter {
  name : string;
  param : dict param_val;
  param_description : dict string
}.

(** A new dictionary object: a reference that is bound to nothing yet. *)
Definition alloc_steps (d : dict StepParams) : M Store loc :=
  fun st =>
    let l := fresh (dom (step_dicts st)) in
    (set_step_dicts (<[l := d]> (step_dicts st)) st, Return l).

Definition alloc_params (d : dict loc) : M Store loc :=
  fun st =>
    let l := fresh (dom (params_dicts st)) in
    (set_params_dicts (<[l := d]> (params_dicts st)) st, Return l).

Definition postprocessing_steps : dict StepParams :=
  [ ("random_spikes", []); ("noise_levels", []); ("correlograms", []);
    ("waveforms", []); ("templates", []);
    ("amplitude_scalings", []); ("spike_amplitudes", []);
    ("unit_locations", [("method", PStr "center_of_mass")]);
    ("spike_locations", []);
    ("template_similarity", []); ("template_metrics", []);
    ("quality_metrics", []) ].

(** [Protocol.__init__(min_freq, max_freq, file_path)] *)
Definition Protocol_init (min_freq max_freq : Q) (file_path : string)
  : M Store Protocol :=
  pre <- alloc_steps
           [("bandpass_filter",
             [("freq_min", PNum min_freq); ("freq_max", PNum max_freq)])] ;;
  post <- alloc_steps postprocessing_steps ;;
  p <- alloc_params [("preprocessing", pre); ("postprocessing", post)] ;;
  ret (mkProtocol min_freq max_freq file_path p).

(** [copy.deepcopy] of the entries of [params]: every step mapping is
    copied to a new object; [memo] sends an object already copied to its
    copy, so that sharing inside the protocol is kept. *)
Fixpoint deepcopy_entries (memo : gmap loc loc) (d : dict loc)
  : M Store (dict loc) :=
  match d with
  | [] => ret []
  | (k, l) :: d' =>
      match memo !! l with
      | Some l' =>
          rest <- deepcopy_entries memo d' ;;
          ret ((k, l') :: rest)
      | None =>
          st <- get_state ;;
          match step_dicts st !! l with
          | None => raise_exn dangling
          | Some steps =>
              l' <- alloc_steps steps ;;
              rest <- deepcopy_entries (<[l := l']> memo) d' ;;
              ret ((k, l') :: rest)
          end
      end
  end.

(** [copy.deepcopy(protocol)] *)
Definition deepcopy (protocol : Protocol) : M Store Protocol :=
  st <- get_state ;;
  match params_dicts st !! params protocol with
  | None => raise_exn dangling
  | Some d =>
      d' <- deepcopy_entries ∅ d ;;
      p <- alloc_params d' ;;
      ret (mkProtocol (_min_freq protocol) (_max_freq protocol)
                      (protocol_file_path protocol) p)
  end.

(** [protocol.params[section]] read through the references. *)
Definition params_section (section : string) (protocol : Protocol)
  : M Store (loc * dict StepParams) :=
  st <- get_state ;;
  match params_dicts st !! params protocol with
  | None => raise_exn dangling
  | Some d =>
      match dict_get section d with
      | None => raise_exn (Exn KeyError ("'" +:+ section +:+ "'") None)
      | Some l =>
          match step_dicts st !! l with
          | None => raise_exn dangling
          | Some steps => ret (l, steps)
          end
      end
  end.

(** ** PipelineClass.py *)

(** The session [_rhs_files] is shared with the caller: it is part of the
    state the methods run on, together with the store. *)
Record Pipeline : Type := mkPipeline {
  _sorter : Sorter;
  _protocol : Protocol;
  _output_sorter_folder : string;
  _output_analyzer_folder : string
}.

Definition on_store {A} (m : M Store A) : M (IntanFile * Store) A :=
  fun s => let '(st', o) := m s.2 in ((s.1, st'), o).

Definition on_session (f : IntanFile -> IntanFile) : M (IntanFile * Store) unit :=
  modify (fun s => (f s.1, s.2)).

(** [try: m except Exception as exc: handler(exc)] *)
Definition try_except {S A} (m : M S A) (handler : exn -> M S A) : M S A :=
  fun s => match m s with
           | (s', Return a) => (s', Return a)
           | (s', Raise e) => handler e s'
           end.

(** [Pipeline.__remove_artifacts] *)
Definition Pipeline__remove_artifacts (self : Pipeline) : M (IntanFile * Store) unit :=
  s <- get_state ;;
  let rhs_files := s.1 in
  if decide (len (trigger_timestamps rhs_files) <> 0) then
    pre <- on_store (params_section "preprocessing" (_protocol self)) ;;
    modify (fun s =>
      (s.1,
       set_step_dicts
         (<[pre.1 := dict_set "remove_artifacts"
                       [("list_triggers", PArray (trigger_timestamps rhs_files));
                        ("mode", PStr "zeros")]
                       pre.2]> (step_dicts s.2)) s.2))
  else ret tt.

(** Steps 1 to 4 of [Pipeline.__pipeline_sorter_analyzer]: preprocessing,
    probe, sorter, duplicate removal. The result is the local [rec] and
    the curated sorting. *)
Definition preprocess_sort_dedup (self : Pipeline)
  : M (IntanFile * Store) (Recording * Sorting) :=
  s <- get_state ;;
  let rhs_files := s.1 in
  pre <- on_store (params_section "preprocessing" (_protocol self)) ;;
  rec <- lift_outcome
           (apply_preprocessing_pipeline
              (_signed_amplifier_channel_recording rhs_files) pre.2) ;;
  rec <- match _probe rhs_files with
         | Some p => lift_outcome (set_probe rec p)
         | None => ret rec
         end ;;
  on_session (set_pre_processed_signed_amplifier_channel_recording (Some rec)) ;;;
  sorting_results <- lift_outcome
                       (run_sorter (name (_sorter self)) rec
                                   (_output_sorter_folder self)) ;;
  dedup <- lift_outcome (remove_duplicated_spikes sorting_results) ;;
  on_session (set_sorting_dedup (Some dedup)) ;;;
  ret (rec, dedup).

(** Step 5: the [try] / [except ValueError] around the construction of
    the analyzer. *)
Definition create_analyzer (self : Pipeline) (rec : Recording) (dedup : Sorting)
  : M (IntanFile * Store) Analyzer :=
  try_except
    (lift_outcome (create_sorting_analyzer rec dedup (_output_analyzer_folder self)))
    (fun exc =>
       if is_ValueError exc then
         if str_in "need at least one array to concatenate" (exn_msg exc) then
           raise_exn (Exn RuntimeError
             "Analyzer creation failed because sorting has no spikes to sample."
             (Some exc))
         else raise_exn exc
       else raise_exn exc).

(** [Pipeline.__pipeline_sorter_analyzer] *)
Definition Pipeline__pipeline_sorter_analyzer (self : Pipeline)
  : M (IntanFile * Store) unit :=
  rd <- preprocess_sort_dedup self ;;
  analyzer_result <- create_analyzer self rd.1 rd.2 ;;
  post <- on_store (params_section "postprocessing" (_protocol self)) ;;
  analyzer_result <- lift_outcome (compute analyzer_result post.2) ;;
  on_session (set_computed_analyzer_result (Some analyzer_result)).

(** The object [Pipeline.__init__] works on: the fields set before the
    two stages run. *)
Definition Pipeline_new (sorter : Sorter) (folder_path : string) (protocol : Protocol)
  : M (IntanFile * Store) Pipeline :=
  copy <- on_store (deepcopy protocol) ;;
  ret (mkPipeline sorter copy
         (os_path_join folder_path ("Sorting_pipeline_" +:+ name sorter))
         (os_path_join folder_path ("Analyzer_binary_pipeline_" +:+ name sorter))).

(** [Pipeline(sorter, folder_path, protocol, rhs_files)] *)
Definition Pipeline_init (sorter : Sorter) (folder_path : string) (protocol : Protocol)
  : M (IntanFile * Store) Pipeline :=
  self <- Pipeline_new sorter folder_path protocol ;;
  Pipeline__remove_artifacts self ;;;
  Pipeline__pipeline_sorter_analyzer self ;;;
  ret self.

End Embedding.

(** ** Definitions used by the statements *)

(** Lines 138-141 on a one-dimensional trace: the candidate crossings in
    seconds, before the minimum-interval filter. *)
Definition candidate_timestamps (column : list Z) (frequency : Q) (t : Trigger)
  : list Q :=
  samples_to_seconds frequency
    (np_where_eq (diff1 (under (threshold t) <$> column)) (edge t)).

(** The debouncing rule in the words of the specification: keep the first
    crossing; keep a later candidate only if its time minus the last kept
    timestamp is at least [min_interval]. *)
Fixpoint spec_greedy_scan (min_interval last_kept : Q) (candidates : list Q)
  : list Q :=
  match candidates with
  | [] => []
  | c :: cs =>
      if Qle_bool min_interval (c - last_kept)%Q
      then c :: spec_greedy_scan min_interval c cs
      else spec_greedy_scan min_interval last_kept cs
  end.

Definition spec_debounce (min_interval : Q) (candidates : list Q) : list Q :=
  match candidates with
  | [] => []
  | c :: cs => c :: spec_greedy_scan min_interval c cs
  end.


(** The nested value of [protocol.params], read through the references. *)
Definition read_protocol (st : Store) (protocol : Protocol)
  : option (dict (dict StepParams)) :=
  d ← params_dicts st !! params protocol;
  mapM (fun kl => steps ← step_dicts st !! kl.2; Some (kl.1, steps)) d.

(** What a computation on the store may do to the objects that exist
    already: nothing. It may bind new references. *)
Definition store_extends (st st' : Store) : Prop :=
  frames st' = frames st
  /\ files st' = files st
  /\ params_dicts st ⊆ params_dicts st'
  /\ step_dicts st ⊆ step_dicts st'.

(** A computation on the session and the store that leaves the store as
    it is, whatever it returns or raises. *)
Definition keeps_store {L : Library} {A} (m : M (IntanFile * Store) A) : Prop :=
  forall s, (m s).1.2 = s.2.

(** ** Concrete inputs and a concrete library *)

Definition synthetic_signal : list Z :=
  [40000; 40000; 30000; 30000; 40000; 40000].

Definition synthetic_adc : Recording :=
  mkRecording [(PyStr "ANALOG-IN-1", synthetic_signal)] 1000 1.

Definition two_channel_amplifier : Recording :=
  mkRecording [(PyStr "1", [0; 0; 0; 0; 0; 0]); (PyStr "2", [0; 0; 0; 0; 0; 0])]
              1000 1.

(** A session as [IntanFile.__init__] leaves it. *)
Definition session_of {L : Library} (adc amplifier : Recording) : IntanFile :=
  mkIntanFile "session" [] (get_sampling_frequency amplifier)
    (get_channel_ids amplifier) (get_num_channels amplifier)
    (get_num_segments amplifier) amplifier adc amplifier amplifier
    None None None None None None.

Definition synthetic_session {L : Library} : IntanFile :=
  session_of synthetic_adc two_channel_amplifier.

(** A burst: the mask rises at samples 1 and 4, and again at sample 28. *)
Definition burst_signal : list Z :=
  ([40000; 40000; 30000; 40000; 40000; 30000] ++ replicate 23 40000%Z
   ++ [30000; 30000])%list.

Definition burst_session {L : Library} : IntanFile :=
  session_of (mkRecording [(PyStr "ANALOG-IN-1", burst_signal)] 1000 1)
             two_channel_amplifier.

Definition empty_adc_session {L : Library} : IntanFile :=
  session_of (mkRecording [] 1000 1) two_channel_amplifier.

(** Insertion sort on [device_channel_indices], one implementation of
    [sort_values]. *)
Fixpoint insert_row (r : Row) (df : DataFrame) : DataFrame :=
  match df with
  | [] => [r]
  | x :: df' =>
      if (device_channel_indices r <=? device_channel_indices x)%Z
      then r :: df
      else x :: insert_row r df'
  end.

Definition insertion_sort (df : DataFrame) : DataFrame :=
  foldr insert_row [] df.

(** A library in which every call succeeds, except that the analyzer
    construction gives [created]. *)
Definition example_library (created : outcome (list string)) : Library := {|
  InterfaceProbe := DataFrame;
  Sorting := list (list Z);
  Analyzer := list string;
  read_split_intan_files := fun _ stream =>
    if decide (stream = "USB board ADC input channel")
    then Return synthetic_adc else Return two_channel_amplifier;
  unsigned_to_signed := Return;
  sort_values := insertion_sort;
  from_dataframe := Return;
  set_probe := fun r _ => Return r;
  os_path_join := fun a b => a +:+ "/" +:+ b;
  apply_preprocessing_pipeline := fun r _ => Return r;
  run_sorter := fun _ _ _ => Return [];
  remove_duplicated_spikes := Return;
  create_sorting_analyzer := fun _ _ _ => created;
  compute := fun a steps => Return (a ++ dict_keys steps)%list
|}.

Definition concatenate_error : exn :=
  Exn ValueError "need at least one array to concatenate" None.

Definition other_error : exn :=
  Exn ValueError "recording and sorting have different sampling frequencies" None.

Definition test_library : Library := example_library (Return []).

Definition falling_trigger : TimestampsParameters :=
  mkTimestampsParameters (mkTrigger 35000 (-1) 0) 0.

Definition debounced_trigger : TimestampsParameters :=
  mkTimestampsParameters (mkTrigger 35000 1 (1 # 100)) 0.

(** Probe tables and sessions for probe alignment. *)
Definition three_contact_table : DataFrame :=
  [ mkRow (PyStr "0") 10 [("x", PyInt 0)];
    mkRow (PyStr "1") 30 [("x", PyInt 20)];
    mkRow (PyStr "2") 20 [("x", PyInt 40)] ].

Definition integer_contact_table : DataFrame :=
  [ mkRow (PyInt 1) 0 [("x", PyInt 0)];
    mkRow (PyInt 2) 1 [("x", PyInt 20)] ].

Definition four_channel_amplifier : Recording :=
  mkRecording [(PyStr "0", []); (PyStr "1", []); (PyStr "2", []); (PyStr "3", [])]
              1000 1.

Definition four_channel_session {L : Library} : IntanFile :=
  session_of synthetic_adc four_channel_amplifier.

Definition example_probe : Probe := mkProbe "probe.json" 1%positive.

Definition store_with_table (df : DataFrame) : Store :=
  set_frames (<[_dataframe example_probe := df]> ∅) empty_store.

(** A protocol built by [Protocol.__init__] in an empty store, a sorter,
    and sessions with and without trigger timestamps. *)
Definition example_protocol_store : Store :=
  (Protocol_init 400 5000 "my_protocol.json" empty_store).1.

Definition example_protocol : Protocol :=
  mkProtocol 400 5000 "my_protocol.json" 1%positive.

Definition example_sorter : Sorter := mkSorter "tridesclous2" [] [].

Definition triggered_session {L : Library} : IntanFile :=
  set_trigger_timestamps [(3 # 1000)%Q] synthetic_session.

(** A library like [test_library] in which probe construction and
    preprocessing are given. *)
Definition library_with (build : DataFrame -> outcome DataFrame)
    (preprocess : Recording -> dict StepParams -> outcome Recording)
    : Library := {|
  InterfaceProbe := DataFrame;
  Sorting := list (list Z);
  Analyzer := list string;
  read_split_intan_files := fun _ stream =>
    if decide (stream = "USB board ADC input channel")
    then Return synthetic_adc else Return two_channel_amplifier;
  unsigned_to_signed := Return;
  sort_values := insertion_sort;
  from_dataframe := build;
  set_probe := fun r _ => Return r;
  os_path_join := fun a b => a +:+ "/" +:+ b;
  apply_preprocessing_pipeline := preprocess;
  run_sorter := fun _ _ _ => Return [];
  remove_duplicated_spikes := Return;
  create_sorting_analyzer := fun _ _ _ => Return [];
  compute := fun a steps => Return (a ++ dict_keys steps)%list
|}.

Definition probe_error : exn :=
  Exn ValueError "contacts have no positions" None.

Definition failing_probe_library : Library :=
  library_with (fun _ => Raise probe_error) (fun r _ => Return r).

Definition preprocessing_error : exn :=
  Exn ValueError "unknown preprocessing step" None.

Definition failing_preprocessing_library : Library :=
  library_with Return (fun _ _ => Raise preprocessing_error).

Definition rising_trigger : TimestampsParameters :=
  mkTimestampsParameters (mkTrigger 35000 1 0) 0.

(** A store with a protocol that has no ['preprocessing'] entry, and one
    with a protocol that has no ['postprocessing'] entry. *)
Definition store_without_preprocessing : Store :=
  mkStore ∅ {[1%positive := [("postprocessing", 1%positive)]]}
          {[1%positive := postprocessing_steps]} ∅.

Definition store_without_postprocessing : Store :=
  mkStore ∅ {[1%positive := [("preprocessing", 1%positive)]]}
          {[1%positive := [("bandpass_filter",
                            [("freq_min", PNum 400); ("freq_max", PNum 5000)])]]}
          ∅.

(** ** PDFGeneratorClass.py: the page layout computations *)

(** [range(0, stop, step)] for a positive [step]. *)
Definition py_range (stop step : nat) : list nat :=
  (fun k => (k * step)%nat) <$> seq 0 ((stop + step - 1) / step)%nat.

(** [l[start:stop]] for [start <= stop]. *)
Definition py_slice {A} (start stop : nat) (l : list A) : list A :=
  take (stop - start) (drop start l).

Definition units_per_page : nat := 8.

(** Lines 224-227 of [__generate_pdf]: the [unit_ids_chunk] of the
    successive [plot_unit_waveforms] pages. *)
Definition waveform_page_chunks (unit_ids : list pyval) : list (list pyval) :=
  (fun start => py_slice start (start + units_per_page) unit_ids)
    <$> py_range (length unit_ids) units_per_page.




(** ** Trigger detection *)

Section TriggerDetection.

Context {L : Library}.



Lemma seconds_lt frequency i j :
  (0 < frequency)%Q -> i < j ->
  (inject_Z i / frequency < inject_Z j / frequency)%Q.
Proof.
  intros Hf Hij. unfold Qdiv.
  apply Qmult_lt_compat_r; [by apply Qinv_lt_0_compat|].
  by rewrite <- Zlt_Qlt.
Qed.



(** The loop of the source, started on a non-empty [kept], appends what
    the rule of the specification selects after [kept]'s last element. *)
Lemma debounce_loop_spec mi rest kept prev :
  last kept = Some prev ->
  fold_left (debounce_step mi) rest kept
  = (kept ++ spec_greedy_scan mi prev rest)%list.
Proof.
  revert kept prev. induction rest as [|c rest IH]; intros kept prev Hlast; simpl.
  - by rewrite app_nil_r.
  - unfold debounce_step at 2. rewrite Hlast.
    destruct (Qle_bool mi (c - prev)).
    + rewrite (IH _ c) by apply last_snoc. by rewrite <- app_assoc.
    + by apply IH.
Qed.

Lemma min_interval_filter_spec mi timestamps :
  (0 < mi)%Q -> min_interval_filter mi timestamps = spec_debounce mi timestamps.
Proof.
  intros Hmi. unfold min_interval_filter.
  destruct (Qlt_le_dec 0 mi) as [_|Hle]; [|exfalso; lra].
  destruct timestamps as [|c cs]; [done|]. simpl.
  by rewrite (debounce_loop_spec mi cs [c] c).
Qed.

Lemma min_interval_filter_disabled mi timestamps :
  (mi <= 0)%Q -> min_interval_filter mi timestamps = timestamps.
Proof.
  intros Hmi. unfold min_interval_filter.
  destruct (Qlt_le_dec 0 mi) as [Hlt|_]; [exfalso; lra|done].
Qed.

Lemma spec_greedy_scan_sublist mi prev cs :
  sublist (spec_greedy_scan mi prev cs) cs.
Proof.
  revert prev. induction cs as [|c cs IH]; intros prev; simpl; [constructor|].
  destruct (Qle_bool mi (c - prev)); [apply sublist_skip|apply sublist_cons]; apply IH.
Qed.

Lemma min_interval_filter_sublist mi timestamps :
  sublist (min_interval_filter mi timestamps) timestamps.
Proof.
  destruct (Qlt_le_dec 0 mi) as [Hlt|Hle].
  - rewrite min_interval_filter_spec by done.
    destruct timestamps as [|c cs]; simpl; [constructor|].
    apply sublist_skip, spec_greedy_scan_sublist.
  - by rewrite min_interval_filter_disabled.
Qed.


(** Consecutive elements of what the greedy scan keeps, the last kept
    timestamp included, are at least [mi] apart. *)
Lemma spec_greedy_scan_gaps mi prev cs i a b :
  (prev :: spec_greedy_scan mi prev cs) !! i = Some a ->
  (prev :: spec_greedy_scan mi prev cs) !! S i = Some b ->
  (mi <= b - a)%Q.
Proof.
  revert prev i. induction cs as [|c cs IH]; intros prev i; simpl.
  - destruct i; simpl; discriminate.
  - destruct (Qle_bool mi (c - prev)) eqn:Hle.
    + destruct i as [|i]; simpl.
      * intros [= <-] [= <-]. by apply Qle_bool_iff.
      * apply (IH c i).
    + apply IH.
Qed.

Lemma str_prefix_app a y : str_prefix a (a +:+ y) = true.
Proof. induction a as [|c a IH]; simpl; [done|]. by rewrite decide_True. Qed.

Lemma str_in_prefix a s : str_prefix a s = true -> str_in a s = true.
Proof. intros H. destruct s; simpl; by rewrite H. Qed.

Lemma str_in_app_r a x s : str_in a s = true -> str_in a (x +:+ s) = true.
Proof.
  intros H. induction x as [|c x IH]; [done|].
  change (String c x +:+ s) with (String c (x +:+ s)).
  simpl. rewrite IH. apply orb_true_r.
Qed.

Lemma str_in_app a x y : str_in a (x +:+ a +:+ y) = true.
Proof. apply str_in_app_r, str_in_prefix, str_prefix_app. Qed.

Lemma out_of_range_message_names channel_index n :
  str_in (pretty channel_index) (out_of_range_message channel_index n) = true
  /\ str_in (pretty n) (out_of_range_message channel_index n) = true.
Proof.
  unfold out_of_range_message. split.
  - apply str_in_app.
  - do 2 apply str_in_app_r. apply str_in_app.
Qed.

Lemma generate_out_of_range (self : IntanFile) tp :
  let ids := get_channel_ids (_adc_channel_recording self) in
  trigger_channel_index tp < 0 \/ len ids <= trigger_channel_index tp ->
  generate_trigger_timestamps tp self
  = (set_timestamps_parameters (Some tp) self,
     Raise (Exn ValueError
              (out_of_range_message (trigger_channel_index tp) (len ids)) None)).
Proof.
  intros ids Hrange. unfold generate_trigger_timestamps, bind, modify, get_state.
  simpl. fold ids.
  destruct ((trigger_channel_index tp <? 0)
            || (trigger_channel_index tp >=? len ids))%Z eqn:E; [done|].
  apply orb_false_iff in E as [E1 E2]. lia.
Qed.

Lemma generate_in_range (self : IntanFile) tp cid :
  let adc := _adc_channel_recording self in
  get_channel_ids adc !! Z.to_nat (trigger_channel_index tp) = Some cid ->
  0 <= trigger_channel_index tp ->
  length (get_traces adc cid) <> 1%nat ->
  generate_trigger_timestamps tp self
  = (set_trigger_timestamps
       (min_interval_filter (min_interval (trigger tp))
          (candidate_timestamps (get_traces adc cid) (get_sampling_frequency adc)
                                (trigger tp)))
       (set_timestamps_parameters (Some tp) self),
     Return tt).
Proof.
  intros adc Hcid Hidx Hlen.
  unfold generate_trigger_timestamps, bind, modify, get_state. simpl. fold adc.
  apply lookup_lt_Some in Hcid as Hlt.
  destruct ((trigger_channel_index tp <? 0)
            || (trigger_channel_index tp >=? len (get_channel_ids adc)))%Z eqn:E.
  { apply orb_true_iff in E as [E|E]; unfold len in *; lia. }
  rewrite Hcid. unfold squeeze.
  destruct (get_traces adc cid) as [|x [|y column]] eqn:Etr; simpl; done.
Qed.


(** C6: a [trigger_channel_index] greater than or equal to the number of
    channels of the auxiliary stream, whatever that number is, makes
    trigger detection raise the range error, a [ValueError] whose message
    names the index and the channel count, and the session's
    [trigger_timestamps] stay as they were. *)
Theorem index_beyond_channel_count_rejected (self : IntanFile) tp (n : Z) :
  len (get_channel_ids (_adc_channel_recording self)) = n ->
  n <= trigger_channel_index tp ->
  let run := generate_trigger_timestamps tp self in
  run.2 = Raise (Exn ValueError
                   (out_of_range_message (trigger_channel_index tp) n) None)
  /\ str_in (pretty (trigger_channel_index tp))
            (out_of_range_message (trigger_channel_index tp) n) = true
  /\ str_in (pretty n) (out_of_range_message (trigger_channel_index tp) n) = true
  /\ trigger_timestamps run.1 = trigger_timestamps self.
Proof.
  intros Hn Hge run. unfold run.
  rewrite generate_out_of_range by (right; lia). rewrite Hn. simpl.
  split; [done|]. split; [apply out_of_range_message_names|].
  split; [apply out_of_range_message_names|done].
Qed.

(** C10: a negative [trigger_channel_index] makes trigger detection raise
    the same range error as an index that is too large; the channel list
    is never indexed from its end, and the session's [trigger_timestamps]
    stay as they were. *)
Theorem negative_index_rejected (self : IntanFile) tp :
  trigger_channel_index tp < 0 ->
  let n := len (get_channel_ids (_adc_channel_recording self)) in
  let run := generate_trigger_timestamps tp self in
  run.2 = Raise (Exn ValueError
                   (out_of_range_message (trigger_channel_index tp) n) None)
  /\ trigger_timestamps run.1 = trigger_timestamps self.
Proof.
  intros Hneg n run. unfold run.
  rewrite generate_out_of_range by (left; lia). done.
Qed.

(** C1, as the code has it: on the synthetic signal at 1000 Hz with
    threshold 35000, edge -1 and no minimum interval, exactly one
    timestamp is stored, 0.003 s: sample index 3, where the
    under-threshold mask goes from 1 to 0 (the signal is back above the
    threshold at sample 4). *)
Theorem synthetic_signal_one_crossing_at_index_3 :
  generate_trigger_timestamps falling_trigger synthetic_session
  = (set_trigger_timestamps [(inject_Z 3 / 1000)%Q]
       (set_timestamps_parameters (Some falling_trigger) synthetic_session),
     Return tt)
  /\ np_where_eq (diff1 (under 35000 <$> synthetic_signal)) (-1) = [3]
  /\ Forall2 Qeq (trigger_timestamps
                    (generate_trigger_timestamps falling_trigger synthetic_session).1)
                 [0.003%Q].
Proof.
  split; [reflexivity|]. split; [reflexivity|].
  repeat constructor.
Qed.

End TriggerDetection.

Example synthetic_session_loaded :
  IntanFile_init (L := test_library) "session" = Return synthetic_session.
Proof. reflexivity. Qed.

(** C1 as stated fails: the stored timestamps are not the single
    timestamp 0.002 s. *)
Lemma synthetic_signal_not_at_index_2 :
  ~ (exists t,
       trigger_timestamps
         (generate_trigger_timestamps (L := test_library)
            falling_trigger synthetic_session).1 = [t]
       /\ (t == inject_Z 2 / 1000)%Q).
Proof.
  intros (t & Ht & Heq). vm_compute in Ht. injection Ht as <-.
  vm_compute in Heq. discriminate.
Qed.


Lemma index_beyond_channel_count_rejected_witness :
  (generate_trigger_timestamps (L := test_library)
     (mkTimestampsParameters (mkTrigger 35000 (-1) 0) 0) empty_adc_session).2
  = Raise (Exn ValueError
             "trigger_channel_index=0 is out of range for 0 ADC channels." None).
Proof.
  apply (index_beyond_channel_count_rejected (L := test_library)
           empty_adc_session (mkTimestampsParameters (mkTrigger 35000 (-1) 0) 0) 0);
    [reflexivity | simpl; lia].
Defined.

Lemma negative_index_rejected_witness :
  (generate_trigger_timestamps (L := test_library)
     (mkTimestampsParameters (mkTrigger 35000 (-1) 0) (-1)) synthetic_session).2
  = Raise (Exn ValueError
             "trigger_channel_index=-1 is out of range for 1 ADC channels." None).
Proof.
  apply (negative_index_rejected (L := test_library) synthetic_session
           (mkTimestampsParameters (mkTrigger 35000 (-1) 0) (-1))).
  simpl. lia.
Defined.

(** ** Probe alignment *)

Section ProbeAlignment.

Context {L : Library}.

(** [associate_probe] stage by stage, once the probe's table is read. *)
Lemma associate_probe_unfold probe (self : IntanFile) st df :
  frames st !! _dataframe probe = Some df ->
  associate_probe probe (self, st)
  = let self1 := set_probe_field (Some (WrapperProbe probe)) self in
    let st1 :=
      set_frames (<[_dataframe probe := contact_ids_astype_str df]> (frames st)) st in
    match align_dataframe (channel_ids self) (contact_ids_astype_str df) with
    | Raise e => ((self1, st1), Raise e)
    | Return aligned =>
        let st2 :=
          set_files (<["probe_dataframe_dump.txt" := aligned]> (files st1)) st1 in
        match from_dataframe aligned with
        | Raise e => ((self1, st2), Raise e)
        | Return p =>
            let self2 := set_probe_field (Some (AlignedProbe p)) self1 in
            match set_probe (_signed_amplifier_channel_recording self)
                            (AlignedProbe p) with
            | Raise e => ((self2, st2), Raise e)
            | Return rec =>
                ((set_signed_amplifier_channel_recording rec self2, st2), Return tt)
            end
        end
    end.
Proof.
  intros Hdf. unfold associate_probe, bind, modify, get_state, lift_outcome.
  simpl. rewrite Hdf. simpl.
  destruct (align_dataframe _ _) as [aligned|e]; [|done].
  destruct (from_dataframe aligned) as [p|e]; [|done].
  by destruct (set_probe _ _) as [rec|e].
Qed.

Lemma drop_duplicates_from_ids seen df c :
  c ∈ contact_ids <$> drop_duplicates_from seen df
  <-> c ∈ contact_ids <$> df /\ c ∉ seen.
Proof.
  revert seen. induction df as [|r df IH]; intros seen; simpl.
  - rewrite elem_of_nil. tauto.
  - case_decide as Hseen; simpl; rewrite ?elem_of_cons, IH, ?elem_of_cons.
    + split; [tauto|]. intros [[->|Hc] Hn]; [done|tauto].
    + split.
      * intros [->|[Hc Hn]]; [tauto|]. tauto.
      * intros [[->|Hc] Hn]; [tauto|].
        destruct (decide (c = contact_ids r)); tauto.
Qed.

Lemma drop_duplicates_from_NoDup seen df :
  NoDup (contact_ids <$> drop_duplicates_from seen df).
Proof.
  revert seen. induction df as [|r df IH]; intros seen; simpl; [constructor|].
  case_decide; simpl; [apply IH|].
  constructor; [|apply IH].
  rewrite drop_duplicates_from_ids, elem_of_cons. tauto.
Qed.

Lemma drop_duplicates_from_sublist seen df :
  sublist (drop_duplicates_from seen df) df.
Proof.
  revert seen. induction df as [|r df IH]; intros seen; simpl; [constructor|].
  case_decide; [apply sublist_cons|apply sublist_skip]; apply IH.
Qed.


Lemma renumber_from_keeps start df :
  contact_ids <$> renumber_from start df = contact_ids <$> df
  /\ other_columns <$> renumber_from start df = other_columns <$> df.
Proof.
  revert start. induction df as [|r df IH]; intros start; [done|].
  simpl renumber_from. rewrite !fmap_cons.
  destruct (IH (start + 1)) as [-> ->]. done.
Qed.

Lemma align_dataframe_matching ids df :
  let kept :=
    drop_duplicates (filter_isin ((fun ch => PyStr (py_str ch)) <$> ids) df) in
  len kept = len ids ->
  align_dataframe ids df = Return (renumber (sort_values kept)).
Proof.
  intros kept Hlen. unfold align_dataframe. fold kept.
  case_decide; [done|reflexivity].
Qed.

Lemma align_dataframe_mismatch ids df :
  let kept :=
    drop_duplicates (filter_isin ((fun ch => PyStr (py_str ch)) <$> ids) df) in
  len kept <> len ids ->
  align_dataframe ids df
  = Raise (Exn ValueError (mismatch_message (len kept) (len ids)) None).
Proof.
  intros kept Hlen. unfold align_dataframe. fold kept.
  case_decide; [reflexivity|done].
Qed.


Lemma filter_isin_ids wanted df c :
  c ∈ contact_ids <$> filter_isin wanted df
  <-> c ∈ contact_ids <$> df /\ c ∈ wanted.
Proof.
  unfold filter_isin. rewrite !list_elem_of_fmap. split.
  - intros (r & -> & Hr). apply list_elem_of_filter in Hr as [Hin Hr]. eauto.
  - intros [(r & -> & Hr) Hin]. exists r. split; [done|].
    by apply list_elem_of_filter.
Qed.


Lemma contact_ids_astype_str_columns df :
  contact_ids <$> contact_ids_astype_str df
  = (fun r => PyStr (py_str (contact_ids r))) <$> df
  /\ device_channel_indices <$> contact_ids_astype_str df
     = device_channel_indices <$> df
  /\ other_columns <$> contact_ids_astype_str df = other_columns <$> df.
Proof.
  unfold contact_ids_astype_str. rewrite <- !list_fmap_compose. done.
Qed.

Lemma contact_ids_astype_str_strings df :
  Forall (fun r => exists s, contact_ids r = PyStr s) df ->
  contact_ids_astype_str df = df.
Proof.
  unfold contact_ids_astype_str.
  induction 1 as [|r df [s Hs] _ IH]; [done|].
  rewrite fmap_cons, IH. f_equal. destruct r as [c d o]. simpl in *. by subst.
Qed.

(** Whatever [associate_probe] returns or raises, the table behind the
    probe's reference is the normalised one and the other tables are as
    before. *)
Lemma associate_probe_frames probe (self : IntanFile) st df :
  frames st !! _dataframe probe = Some df ->
  frames (associate_probe probe (self, st)).1.2
  = <[_dataframe probe := contact_ids_astype_str df]> (frames st).
Proof.
  intros Hdf. rewrite (associate_probe_unfold _ _ _ _ Hdf). simpl.
  destruct (align_dataframe _ _) as [aligned|e]; [|done].
  destruct (from_dataframe aligned) as [p|e]; [|done].
  by destruct (set_probe _ _) as [rec|e].
Qed.




End ProbeAlignment.

(** ** Pipeline orchestration *)

Section PipelineOrchestration.

Context {L : Library}.

Lemma dict_get_set_eq {V} k (v : V) d : dict_get k (dict_set k v d) = Some v.
Proof.
  induction d as [|[k' v'] d IH]; simpl.
  - by rewrite decide_True.
  - case_decide; simpl; [by rewrite decide_True|]. by rewrite decide_False.
Qed.

Lemma dict_get_set_ne {V} k k' (v : V) d :
  k <> k' -> dict_get k' (dict_set k v d) = dict_get k' d.
Proof.
  intros Hne. induction d as [|[k0 v0] d IH]; simpl.
  - by rewrite decide_False.
  - case_decide; simpl; [subst; by rewrite !decide_False|].
    case_decide; [done|apply IH].
Qed.

Lemma keeps_store_ret {A} (a : A) : keeps_store (ret a).
Proof. by intros s. Qed.

Lemma keeps_store_raise {A} e : keeps_store (raise_exn (A := A) e).
Proof. by intros s. Qed.

Lemma keeps_store_lift {A} (o : outcome A) : keeps_store (lift_outcome o).
Proof. by intros s. Qed.

Lemma keeps_store_get : keeps_store get_state.
Proof. by intros s. Qed.

Lemma keeps_store_on_session f : keeps_store (on_session f).
Proof. by intros s. Qed.

Lemma keeps_store_bind {A B} (m : M (IntanFile * Store) A)
      (k : A -> M (IntanFile * Store) B) :
  keeps_store m -> (forall a, keeps_store (k a)) -> keeps_store (bind m k).
Proof.
  intros Hm Hk s. unfold bind. specialize (Hm s).
  destruct (m s) as [s' [a|e]]; simpl in *; [|done].
  by rewrite Hk.
Qed.

Lemma keeps_store_try {A} (m : M (IntanFile * Store) A) handler :
  keeps_store m -> (forall e, keeps_store (handler e)) ->
  keeps_store (try_except m handler).
Proof.
  intros Hm Hh s. unfold try_except. specialize (Hm s).
  destruct (m s) as [s' [a|e]]; simpl in *; [done|].
  by rewrite Hh.
Qed.

Lemma params_section_reads section protocol st :
  (params_section section protocol st).1 = st.
Proof.
  unfold params_section, bind, get_state. simpl.
  destruct (params_dicts st !! params protocol) as [d|]; [|done].
  destruct (dict_get section d) as [l|]; [|done].
  by destruct (step_dicts st !! l).
Qed.

Lemma keeps_store_params_section section protocol :
  keeps_store (on_store (params_section section protocol)).
Proof.
  intros s. unfold on_store.
  pose proof (params_section_reads section protocol s.2) as H.
  destruct (params_section section protocol s.2) as [st' o]. by simpl in *.
Qed.

Create HintDb frame.

#[local] Hint Resolve keeps_store_ret keeps_store_raise keeps_store_lift
  keeps_store_get keeps_store_on_session keeps_store_params_section : frame.

Lemma keeps_store_preprocess_sort_dedup self :
  keeps_store (preprocess_sort_dedup self).
Proof.
  unfold preprocess_sort_dedup.
  repeat (first [ apply keeps_store_bind; [|intros ?]
                | match goal with |- keeps_store (match ?x with _ => _ end) =>
                    destruct x end
                | solve [auto with frame] ]).
Qed.

Lemma keeps_store_create_analyzer self rec dedup :
  keeps_store (create_analyzer self rec dedup).
Proof.
  unfold create_analyzer. apply keeps_store_try; [auto with frame|].
  intros e. destruct (is_ValueError e); [|auto with frame].
  destruct (str_in _ _); auto with frame.
Qed.

Lemma keeps_store_pipeline_sorter_analyzer self :
  keeps_store (Pipeline__pipeline_sorter_analyzer self).
Proof.
  unfold Pipeline__pipeline_sorter_analyzer.
  apply keeps_store_bind; [apply keeps_store_preprocess_sort_dedup|intros rd].
  apply keeps_store_bind; [apply keeps_store_create_analyzer|intros a].
  repeat (first [ apply keeps_store_bind; [|intros ?]
                | solve [auto with frame] ]).
Qed.

Lemma store_extends_refl st : store_extends st st.
Proof. by repeat split. Qed.

Lemma store_extends_trans st1 st2 st3 :
  store_extends st1 st2 -> store_extends st2 st3 -> store_extends st1 st3.
Proof.
  intros (Hf1 & Hd1 & Hp1 & Hs1) (Hf2 & Hd2 & Hp2 & Hs2).
  repeat split; [congruence|congruence|by etrans|by etrans].
Qed.

Lemma alloc_steps_spec d st :
  exists l,
    alloc_steps d st = (set_step_dicts (<[l := d]> (step_dicts st)) st, Return l)
    /\ step_dicts st !! l = None.
Proof.
  exists (fresh (dom (step_dicts st))). split; [done|].
  apply not_elem_of_dom, is_fresh.
Qed.

Lemma alloc_params_spec d st :
  exists l,
    alloc_params d st = (set_params_dicts (<[l := d]> (params_dicts st)) st, Return l)
    /\ params_dicts st !! l = None.
Proof.
  exists (fresh (dom (params_dicts st))). split; [done|].
  apply not_elem_of_dom, is_fresh.
Qed.

(** The copies [deepcopy_entries] hands out are objects that did not
    exist in [st0], the store before the copy started. *)
Lemma deepcopy_entries_fresh st0 d :
  forall memo st st' o,
    store_extends st0 st ->
    (forall l l', memo !! l = Some l' -> step_dicts st0 !! l' = None) ->
    deepcopy_entries memo d st = (st', o) ->
    store_extends st0 st'
    /\ params_dicts st' = params_dicts st
    /\ forall d', o = Return d' ->
                  Forall (fun kl => step_dicts st0 !! kl.2 = None) d'.
Proof.
  induction d as [|[k l] d IH]; intros memo st st' o Hext Hmemo Hrun;
    simpl in Hrun.
  { injection Hrun as <- <-. split; [done|]. split; [done|].
    intros d' [= <-]. constructor. }
  destruct (memo !! l) as [l'|] eqn:Hl.
  - unfold bind in Hrun.
    destruct (deepcopy_entries memo d st) as [st1 [rest|e]] eqn:E;
      injection Hrun as <- <-;
      destruct (IH _ _ _ _ Hext Hmemo E) as (Hext' & Hp & Hfresh).
    + split; [done|]. split; [done|]. intros d' [= <-].
      constructor; [by eapply Hmemo|by apply Hfresh].
    + done.
  - unfold bind at 1, get_state in Hrun. simpl in Hrun.
    destruct (step_dicts st !! l) as [steps|] eqn:Hsteps;
      [|by injection Hrun as <- <-].
    destruct (alloc_steps_spec steps st) as (l' & Halloc & Hnew).
    unfold bind at 1 in Hrun. rewrite Halloc in Hrun.
    set (st1 := set_step_dicts (<[l' := steps]> (step_dicts st)) st) in *.
    assert (store_extends st0 st1) as Hext1.
    { eapply store_extends_trans; [exact Hext|].
      repeat split; simpl; [done|]. by apply insert_subseteq. }
    assert (step_dicts st0 !! l' = None) as Hl'.
    { destruct Hext as (_ & _ & _ & Hsub).
      destruct (step_dicts st0 !! l') as [x|] eqn:E; [|done].
      eapply lookup_weaken in E; [|exact Hsub]. congruence. }
    assert (forall l1 l1', <[l := l']> memo !! l1 = Some l1' ->
                           step_dicts st0 !! l1' = None) as Hmemo1.
    { intros l1 l1'. rewrite lookup_insert. case_decide; [by intros [= <-]|].
      apply Hmemo. }
    unfold bind in Hrun.
    destruct (deepcopy_entries (<[l := l']> memo) d st1) as [st2 [rest|e]] eqn:E;
      injection Hrun as <- <-;
      destruct (IH _ _ _ _ Hext1 Hmemo1 E) as (Hext' & Hp & Hfresh).
    + split; [done|]. split; [done|]. intros d' [= <-].
      constructor; [done|by apply Hfresh].
    + done.
Qed.

(** On a protocol whose step mappings exist, [deepcopy_entries] returns,
    and every copy holds what the original holds. *)
Lemma deepcopy_entries_copies st0 d :
  forall memo st,
    store_extends st0 st ->
    (forall l l', memo !! l = Some l' ->
                  is_Some (step_dicts st0 !! l)
                  /\ step_dicts st !! l' = step_dicts st0 !! l) ->
    Forall (fun kl => is_Some (step_dicts st0 !! kl.2)) d ->
    exists st' d',
      deepcopy_entries memo d st = (st', Return d')
      /\ store_extends st st'
      /\ Forall2 (fun kl kl' => kl'.1 = kl.1
                                /\ step_dicts st' !! kl'.2 = step_dicts st0 !! kl.2)
                 d d'.
Proof.
  induction d as [|[k l] d IH]; intros memo st Hext Hmemo Hwf; simpl.
  { exists st, []. split; [done|]. split; [apply store_extends_refl|constructor]. }
  apply Forall_cons in Hwf as [[steps Hl0] Hwf]. simpl in Hl0.
  destruct (memo !! l) as [l'|] eqn:Hl.
  - destruct (IH memo st Hext Hmemo Hwf) as (st' & rest & Hrun & Hext' & Hall).
    exists st', ((k, l') :: rest). unfold bind. rewrite Hrun. simpl.
    split; [done|]. split; [done|]. constructor; [|done]. simpl. split; [done|].
    destruct (Hmemo _ _ Hl) as [[x Hx] Heq]. rewrite Hx in Heq.
    destruct Hext' as (_ & _ & _ & Hsub). rewrite Hx.
    by eapply lookup_weaken.
  - unfold bind at 1, get_state. simpl.
    assert (step_dicts st !! l = Some steps) as Hsteps.
    { destruct Hext as (_ & _ & _ & Hsub). by eapply lookup_weaken. }
    rewrite Hsteps.
    destruct (alloc_steps_spec steps st) as (l' & Halloc & Hnew).
    unfold bind at 1. rewrite Halloc.
    set (st1 := set_step_dicts (<[l' := steps]> (step_dicts st)) st).
    assert (store_extends st st1) as Hstep.
    { repeat split; simpl; [done|]. by apply insert_subseteq. }
    destruct (IH (<[l := l']> memo) st1) as (st' & rest & Hrun & Hext' & Hall).
    { by eapply store_extends_trans. }
    { intros l1 l1'. rewrite lookup_insert. case_decide as Heq.
      - intros [= <-]. subst l1. split; [by eexists|].
        simpl. by rewrite lookup_insert_eq.
      - intros Hm. destruct (Hmemo _ _ Hm) as [Hsome Hcontent].
        split; [done|]. simpl.
        rewrite lookup_insert_ne; [done|]. intros ->.
        destruct Hsome as [x Hx]. rewrite Hnew in Hcontent. congruence. }
    { done. }
    exists st', ((k, l') :: rest). unfold bind. rewrite Hrun. simpl.
    split; [done|]. split; [by eapply store_extends_trans|].
    constructor; [|done]. simpl. split; [done|]. rewrite Hl0.
    destruct Hext' as (_ & _ & _ & Hsub).
    eapply lookup_weaken; [|exact Hsub]. simpl. by rewrite lookup_insert_eq.
Qed.

Lemma deepcopy_frame protocol st st' o :
  deepcopy protocol st = (st', o) ->
  store_extends st st'
  /\ forall copy, o = Return copy ->
       params_dicts st !! params copy = None
       /\ exists d', params_dicts st' !! params copy = Some d'
                     /\ Forall (fun kl => step_dicts st !! kl.2 = None) d'.
Proof.
  unfold deepcopy, bind, get_state. cbv beta iota.
  destruct (params_dicts st !! params protocol) as [d|];
    [|intros [= <- <-]; split; [apply store_extends_refl|done]].
  destruct (deepcopy_entries ∅ d st) as [st1 [d'|e]] eqn:E;
    destruct (deepcopy_entries_fresh st d ∅ st st1 _ (store_extends_refl st)
                ltac:(intros ??; by rewrite lookup_empty) E)
    as (Hext & Hp & Hfresh).
  - destruct (alloc_params_spec d' st1) as (l & -> & Hnew). simpl.
    intros [= <- <-]. split.
    + eapply store_extends_trans; [exact Hext|].
      repeat split; simpl; [|done]. by apply insert_subseteq.
    + intros copy [= <-]. simpl. rewrite <- Hp. split; [done|].
      exists d'. rewrite lookup_insert_eq. auto.
  - intros [= <- <-]. done.
Qed.

Lemma read_protocol_children st protocol view :
  read_protocol st protocol = Some view ->
  exists d,
    params_dicts st !! params protocol = Some d
    /\ Forall2 (fun kl kv => kv.1 = kl.1 /\ step_dicts st !! kl.2 = Some kv.2)
               d view.
Proof.
  unfold read_protocol. intros Hread.
  destruct (params_dicts st !! params protocol) as [d|]; [|done].
  exists d. split; [done|]. simpl in Hread. apply mapM_Some in Hread.
  eapply Forall2_impl; [exact Hread|]. simpl. intros [k l] [k' steps] H.
  simpl in *. destruct (step_dicts st !! l); simpl in H; [|done].
  by injection H as <- <-.
Qed.

Lemma read_protocol_of_children st protocol d view :
  params_dicts st !! params protocol = Some d ->
  Forall2 (fun kl kv => kv.1 = kl.1 /\ step_dicts st !! kl.2 = Some kv.2) d view ->
  read_protocol st protocol = Some view.
Proof.
  intros Hd Hall. unfold read_protocol. rewrite Hd. simpl.
  apply mapM_Some. eapply Forall2_impl; [exact Hall|].
  simpl. intros [k l] [k' steps] [Hk Hl]. simpl in *. rewrite Hl. simpl.
  by subst.
Qed.

Lemma read_protocol_extends st st' protocol view :
  store_extends st st' ->
  read_protocol st protocol = Some view -> read_protocol st' protocol = Some view.
Proof.
  intros (_ & _ & Hp & Hs) Hread.
  apply read_protocol_children in Hread as (d & Hd & Hall).
  eapply read_protocol_of_children; [by eapply lookup_weaken|].
  eapply Forall2_impl; [exact Hall|]. simpl. intros kl kv [Hk Hl].
  split; [done|]. by eapply lookup_weaken.
Qed.

(** On a protocol whose dictionaries exist, [deepcopy] returns a protocol
    with the same fields and the same nested value of [params]. *)
Lemma deepcopy_copies protocol st view :
  read_protocol st protocol = Some view ->
  exists st' copy,
    deepcopy protocol st = (st', Return copy)
    /\ read_protocol st' copy = Some view
    /\ _min_freq copy = _min_freq protocol
    /\ _max_freq copy = _max_freq protocol
    /\ protocol_file_path copy = protocol_file_path protocol.
Proof.
  intros Hread. apply read_protocol_children in Hread as (d & Hd & Hall).
  destruct (deepcopy_entries_copies st d ∅ st) as (st1 & d' & Hrun & Hext & Hcopy).
  { apply store_extends_refl. }
  { intros ??. by rewrite lookup_empty. }
  { clear -Hall. induction Hall as [|kl kv d view [_ H] _ IH]; constructor; eauto. }
  destruct (alloc_params_spec d' st1) as (l & Halloc & Hnew).
  eexists _, _. unfold deepcopy, bind, get_state. cbv beta iota.
  rewrite Hd, Hrun, Halloc. simpl. split; [reflexivity|]. split; [|done].
  eapply read_protocol_of_children; simpl; [by rewrite lookup_insert_eq|].
  clear -Hall Hcopy. revert d' Hcopy.
  induction Hall as [|kl kv d view [Hk Hl] _ IH]; intros d' Hcopy.
  - apply Forall2_nil_inv_l in Hcopy as ->. constructor.
  - apply Forall2_cons_inv_l in Hcopy as (kl' & rest & [Hk' Hl'] & Hrest & ->).
    constructor; [|by apply IH]. split; congruence.
Qed.

Lemma dict_get_elem_of {V} k (v : V) d : dict_get k d = Some v -> (k, v) ∈ d.
Proof.
  induction d as [|[k' v'] d IH]; simpl; [done|].
  case_decide; [intros [= <-]; subst; left|right; auto].
Qed.

(** [__remove_artifacts] either leaves the store as it is, or rebinds the
    step mapping that ['preprocessing'] refers to in the pipeline's own
    [params]. *)
Lemma remove_artifacts_frame self rhs st :
  let st' := (Pipeline__remove_artifacts self (rhs, st)).1.2 in
  st' = st
  \/ exists d l steps,
       params_dicts st !! params (_protocol self) = Some d
       /\ (("preprocessing", l) : string * loc) ∈ d
       /\ st' = set_step_dicts (<[l := steps]> (step_dicts st)) st.
Proof.
  unfold Pipeline__remove_artifacts, bind, get_state, on_store. simpl.
  case_decide; [|by left].
  unfold params_section, bind, get_state. simpl.
  destruct (params_dicts st !! params (_protocol self)) as [d|] eqn:Hd; [|by left].
  destruct (dict_get "preprocessing" d) as [l|] eqn:Hl; [|by left].
  destruct (step_dicts st !! l) as [steps|]; [|by left].
  right. eexists d, l, _. split; [done|]. split; [|done].
  by apply dict_get_elem_of.
Qed.

Lemma remove_artifacts_spec self (rhs : IntanFile) st d l pre :
  params_dicts st !! params (_protocol self) = Some d ->
  dict_get "preprocessing" d = Some l ->
  step_dicts st !! l = Some pre ->
  Pipeline__remove_artifacts self (rhs, st)
  = ((rhs,
      if decide (trigger_timestamps rhs = []) then st
      else set_step_dicts
             (<[l := dict_set "remove_artifacts"
                       [("list_triggers", PArray (trigger_timestamps rhs));
                        ("mode", PStr "zeros")] pre]>
                (step_dicts st)) st),
     Return tt).
Proof.
  intros Hd Hl Hpre.
  unfold Pipeline__remove_artifacts, bind, get_state, on_store. simpl.
  destruct (decide (len (trigger_timestamps rhs) <> 0)) as [Hlen|Hlen];
    destruct (decide (trigger_timestamps rhs = [])) as [Hnil|Hnil].
  - rewrite Hnil in Hlen. done.
  - unfold params_section, bind, get_state. simpl. rewrite Hd, Hl, Hpre. done.
  - done.
  - destruct (trigger_timestamps rhs); [done|]. unfold len in Hlen.
    simpl in Hlen. lia.
Qed.

Lemma Pipeline_init_unfold sorter folder protocol (rhs : IntanFile) st st1 copy :
  deepcopy protocol st = (st1, Return copy) ->
  let self :=
    mkPipeline sorter copy
      (os_path_join folder ("Sorting_pipeline_" +:+ name sorter))
      (os_path_join folder ("Analyzer_binary_pipeline_" +:+ name sorter)) in
  Pipeline_new sorter folder protocol (rhs, st) = ((rhs, st1), Return self)
  /\ Pipeline_init sorter folder protocol (rhs, st)
     = match Pipeline__remove_artifacts self (rhs, st1) with
       | (s2, Return _) =>
           match Pipeline__pipeline_sorter_analyzer self s2 with
           | (s3, Return _) => (s3, Return self)
           | (s3, Raise e) => (s3, Raise e)
           end
       | (s2, Raise e) => (s2, Raise e)
       end.
Proof.
  intros Hcopy self.
  assert (Pipeline_new sorter folder protocol (rhs, st) = ((rhs, st1), Return self))
    as Hnew.
  { unfold Pipeline_new, bind, on_store. simpl. by rewrite Hcopy. }
  split; [done|]. unfold Pipeline_init. unfold bind at 1. rewrite Hnew.
  unfold bind at 1.
  destruct (Pipeline__remove_artifacts self (rhs, st1)) as [s2 [[]|e]]; [|done].
  unfold bind.
  by destruct (Pipeline__pipeline_sorter_analyzer self s2) as [s3 [[]|e]].
Qed.

Lemma section_of_view st protocol view section steps :
  read_protocol st protocol = Some view ->
  dict_get section view = Some steps ->
  exists d l,
    params_dicts st !! params protocol = Some d
    /\ dict_get section d = Some l
    /\ step_dicts st !! l = Some steps.
Proof.
  intros Hread Hget. apply read_protocol_children in Hread as (d & Hd & Hall).
  exists d.
  assert (exists l, dict_get section d = Some l /\ step_dicts st !! l = Some steps)
    as (l & Hl & Hs); [|by exists l].
  clear Hd. induction Hall as [|[k l] [k' v] d view [Hk Hl] _ IH]; [done|].
  simpl in *. subst k'. case_decide.
  - exists l. by injection Hget as <-.
  - by apply IH.
Qed.

(** Every protocol built by [Protocol.__init__] has its dictionaries in
    the store, with the band-pass filter as its only preprocessing step. *)
Lemma Protocol_init_view min_freq max_freq file_path st :
  exists st' protocol,
    Protocol_init min_freq max_freq file_path st = (st', Return protocol)
    /\ store_extends st st'
    /\ read_protocol st' protocol
       = Some [("preprocessing",
                [("bandpass_filter",
                  [("freq_min", PNum min_freq); ("freq_max", PNum max_freq)])]);
               ("postprocessing", postprocessing_steps)]
    /\ _min_freq protocol = min_freq
    /\ _max_freq protocol = max_freq
    /\ protocol_file_path protocol = file_path.
Proof.
  set (pre := [("bandpass_filter",
                [("freq_min", PNum min_freq); ("freq_max", PNum max_freq)])]).
  destruct (alloc_steps_spec pre st) as (l1 & Hrun1 & Hnew1).
  set (st1 := set_step_dicts (<[l1 := pre]> (step_dicts st)) st) in *.
  destruct (alloc_steps_spec postprocessing_steps st1) as (l2 & Hrun2 & Hnew2).
  set (st2 := set_step_dicts (<[l2 := postprocessing_steps]> (step_dicts st1)) st1)
    in *.
  destruct (alloc_params_spec [("preprocessing", l1); ("postprocessing", l2)] st2)
    as (l3 & Hrun3 & Hnew3).
  assert (l1 <> l2) as Hne.
  { intros <-. simpl in Hnew2. by rewrite lookup_insert_eq in Hnew2. }
  eexists _, _. unfold Protocol_init, bind. fold pre.
  rewrite Hrun1, Hrun2, Hrun3. split; [reflexivity|].
  split.
  { repeat split; simpl; [by apply insert_subseteq|].
    etrans; [by apply insert_subseteq|]. by apply insert_subseteq. }
  split; [|done].
  unfold read_protocol. simpl. rewrite lookup_insert_eq. simpl.
  rewrite (lookup_insert_ne _ l2 l1) by done.
  by rewrite !lookup_insert_eq.
Qed.

(** C3: for a caller's protocol whose dictionaries exist and whose
    preprocessing mapping [pre] has no [remove_artifacts] entry, the
    preprocessing mapping of the pipeline's own protocol after the run
    (whether the later stages return or raise) is [pre] itself when the
    session's [trigger_timestamps] are empty, and [pre] with the entry
    [remove_artifacts] set to [{list_triggers: trigger_timestamps, mode:
    "zeros"}] when they are not: the step is present if and only if there
    are trigger timestamps. *)
Theorem artifact_step_injected_iff_triggers
    sorter folder protocol (rhs : IntanFile) st view pre :
  read_protocol st protocol = Some view ->
  dict_get "preprocessing" view = Some pre ->
  dict_get "remove_artifacts" pre = None ->
  let run := Pipeline_init sorter folder protocol (rhs, st) in
  exists self l pre',
    (Pipeline_new sorter folder protocol (rhs, st)).2 = Return self
    /\ (forall self', run.2 = Return self' -> self' = self)
    /\ params_section "preprocessing" (_protocol self) run.1.2
       = (run.1.2, Return (l, pre'))
    /\ pre' = (if decide (trigger_timestamps rhs = []) then pre
               else dict_set "remove_artifacts"
                      [("list_triggers", PArray (trigger_timestamps rhs));
                       ("mode", PStr "zeros")] pre)
    /\ (is_Some (dict_get "remove_artifacts" pre') <-> trigger_timestamps rhs <> [])
    /\ (trigger_timestamps rhs <> [] ->
        dict_get "remove_artifacts" pre'
        = Some [("list_triggers", PArray (trigger_timestamps rhs));
                ("mode", PStr "zeros")])
    /\ (trigger_timestamps rhs = [] ->
        dict_get "remove_artifacts" pre' = None /\ pre' = pre).
Proof.
  intros Hread Hpre Hnone run.
  destruct (deepcopy_copies _ _ _ Hread) as (st1 & copy & Hcopy & Hread1 & _).
  destruct (section_of_view _ _ _ _ _ Hread1 Hpre) as (d1 & l & Hd1 & Hl & Hsteps).
  destruct (Pipeline_init_unfold sorter folder protocol rhs st st1 copy Hcopy)
    as [Hnew Hinit].
  set (self := mkPipeline sorter copy
                 (os_path_join folder ("Sorting_pipeline_" +:+ name sorter))
                 (os_path_join folder ("Analyzer_binary_pipeline_" +:+ name sorter)))
    in *.
  set (step := [("list_triggers", PArray (trigger_timestamps rhs));
                ("mode", PStr "zeros")]).
  set (pre' := if decide (trigger_timestamps rhs = []) then pre
               else dict_set "remove_artifacts" step pre).
  set (st2 := if decide (trigger_timestamps rhs = []) then st1
              else set_step_dicts
                     (<[l := dict_set "remove_artifacts" step pre]> (step_dicts st1))
                     st1).
  assert (Pipeline__remove_artifacts self (rhs, st1) = ((rhs, st2), Return tt))
    as Hremove by by eapply remove_artifacts_spec.
  assert (run.1.2 = st2 /\ forall self', run.2 = Return self' -> self' = self)
    as [Hstore Hself].
  { unfold run. rewrite Hinit, Hremove.
    pose proof (keeps_store_pipeline_sorter_analyzer self (rhs, st2)) as Hkeep.
    destruct (Pipeline__pipeline_sorter_analyzer self (rhs, st2)) as [s3 [[]|e]];
      simpl in *; split; try done. by intros self' [= <-]. }
  exists self, l, pre'. rewrite Hstore.
  split; [by rewrite Hnew|]. split; [done|].
  split.
  { unfold params_section, bind, get_state. simpl.
    assert (params_dicts st2 = params_dicts st1) as ->
      by (unfold st2; by case_decide).
    rewrite Hd1, Hl.
    assert (step_dicts st2 !! l = Some pre') as ->; [|done].
    unfold st2, pre'. case_decide; [done|]. simpl. by rewrite lookup_insert_eq. }
  split; [done|]. unfold pre'.
  split; [|split].
  - case_decide as Hts.
    + rewrite Hnone. split; [by intros []|done].
    + rewrite dict_get_set_eq. split; [done|by eexists].
  - intros Hts. rewrite decide_False by done. apply dict_get_set_eq.
  - intros Hts. rewrite decide_True by done. done.
Qed.


(** C8: a pipeline run, whether it returns or raises, leaves every
    object that existed before as it was: the dictionaries of the
    caller's protocol (hence the nested value of its [params],
    preprocessing and postprocessing mappings included) and the tables;
    the pipeline's own protocol is another object than the caller's. *)
Theorem caller_protocol_untouched sorter folder protocol (rhs : IntanFile) st :
  let run := Pipeline_init sorter folder protocol (rhs, st) in
  store_extends st run.1.2
  /\ (forall view,
        read_protocol st protocol = Some view ->
        read_protocol run.1.2 protocol = Some view
        /\ forall self, run.2 = Return self ->
                        params (_protocol self) <> params protocol).
Proof.
  intros run.
  assert (store_extends st run.1.2
          /\ forall self, run.2 = Return self ->
                          params_dicts st !! params (_protocol self) = None)
    as [Hext Hself].
  { unfold run.
    destruct (deepcopy protocol st) as [st1 [copy|e]] eqn:Hcopy.
    - destruct (deepcopy_frame _ _ _ _ Hcopy) as [Hext1 Hfresh].
      destruct (Hfresh copy eq_refl) as (Hnew & d' & Hd' & Hall).
      destruct (Pipeline_init_unfold sorter folder protocol rhs st st1 copy Hcopy)
        as [_ ->].
      set (self := mkPipeline sorter copy _ _).
      pose proof (remove_artifacts_frame self rhs st1) as Hremove. simpl in Hremove.
      assert (store_extends st (Pipeline__remove_artifacts self (rhs, st1)).1.2)
        as Hext2.
      { destruct Hremove as [->|(d & l & steps & Hd & Hl & ->)]; [done|].
        rewrite Hd' in Hd. injection Hd as <-.
        rewrite Forall_forall in Hall. apply Hall in Hl. simpl in Hl.
        destruct Hext1 as (Hf & Hd & Hp & Hs). repeat split; simpl; try done.
        by apply insert_subseteq_r. }
      destruct (Pipeline__remove_artifacts self (rhs, st1)) as [s2 [[]|e]];
        [|by split].
      pose proof (keeps_store_pipeline_sorter_analyzer self s2) as Hkeep.
      destruct (Pipeline__pipeline_sorter_analyzer self s2) as [s3 [[]|e]];
        simpl in *; rewrite Hkeep; split; try done.
      by intros ? [= <-].
    - unfold Pipeline_init, Pipeline_new, bind, on_store. simpl. rewrite Hcopy.
      simpl. split; [|done].
      by destruct (deepcopy_frame _ _ _ _ Hcopy) as [Hext1 _]. }
  split; [done|]. intros view Hread.
  split; [by eapply read_protocol_extends|].
  intros self Hrun Heq. apply Hself in Hrun. rewrite Heq in Hrun.
  apply read_protocol_children in Hread as (d & Hd & _). congruence.
Qed.

End PipelineOrchestration.


(** ** The properties on concrete runs *)

Lemma insert_row_perm r df : insert_row r df ≡ₚ r :: df.
Proof.
  induction df as [|x df IH]; simpl; [done|].
  destruct (device_channel_indices r <=? device_channel_indices x)%Z; [done|].
  rewrite IH. apply perm_swap.
Qed.

Lemma insertion_sort_perm df : insertion_sort df ≡ₚ df.
Proof.
  induction df as [|r df IH]; simpl; [done|].
  by rewrite insert_row_perm, IH.
Qed.



Lemma artifact_step_injected_iff_triggers_witness :
  exists self l pre',
    params_section "preprocessing" (_protocol self)
      (Pipeline_init (L := test_library) example_sorter "out" example_protocol
         (triggered_session, example_protocol_store)).1.2
    = ((Pipeline_init (L := test_library) example_sorter "out" example_protocol
          (triggered_session, example_protocol_store)).1.2,
       Return (l, pre'))
    /\ dict_get "remove_artifacts" pre'
       = Some [("list_triggers", PArray [(3 # 1000)%Q]); ("mode", PStr "zeros")].
Proof.
  destruct (artifact_step_injected_iff_triggers (L := test_library)
              example_sorter "out" example_protocol triggered_session
              example_protocol_store
              [("preprocessing",
                [("bandpass_filter",
                  [("freq_min", PNum 400); ("freq_max", PNum 5000)])]);
               ("postprocessing", postprocessing_steps)]
              [("bandpass_filter",
                [("freq_min", PNum 400); ("freq_max", PNum 5000)])])
    as (self & l & pre' & _ & _ & Hsection & _ & _ & Hstep & _).
  - reflexivity.
  - reflexivity.
  - reflexivity.
  - exists self, l, pre'. split; [exact Hsection|].
    apply Hstep. discriminate.
Defined.


(** The whole run ends the same way. *)
Example empty_sorting_run :
  (Pipeline_init (L := example_library (Raise concatenate_error))
     example_sorter "out" example_protocol
     (synthetic_session, example_protocol_store)).2
  = Raise (Exn RuntimeError
             "Analyzer creation failed because sorting has no spikes to sample."
             (Some concatenate_error))
  /\ (Pipeline_init (L := example_library (Raise other_error))
        example_sorter "out" example_protocol
        (synthetic_session, example_protocol_store)).2
     = Raise other_error.
Proof. split; reflexivity. Qed.

Lemma caller_protocol_untouched_witness :
  read_protocol
    (Pipeline_init (L := test_library) example_sorter "out" example_protocol
       (triggered_session, example_protocol_store)).1.2
    example_protocol
  = read_protocol example_protocol_store example_protocol.
Proof.
  destruct (caller_protocol_untouched (L := test_library)
              example_sorter "out" example_protocol triggered_session
              example_protocol_store) as [_ Hview].
  destruct (Hview _ eq_refl) as [-> _]. reflexivity.
Defined.






(** Were the pipeline's [_protocol] the caller's own object, the injection
    would show in the caller's protocol: the copy is what keeps it away. *)
Example remove_artifacts_writes_through_a_shared_protocol :
  let self := mkPipeline example_sorter example_protocol "out/s" "out/a" in
  let run :=
    Pipeline__remove_artifacts (L := test_library) self
      (triggered_session, example_protocol_store) in
  read_protocol run.1.2 example_protocol
  = Some [("preprocessing",
           [("bandpass_filter", [("freq_min", PNum 400); ("freq_max", PNum 5000)]);
            ("remove_artifacts",
             [("list_triggers", PArray [(3 # 1000)%Q]); ("mode", PStr "zeros")])]);
          ("postprocessing", postprocessing_steps)].
Proof. reflexivity. Qed.

(** The burst of [burst_signal] collapses to its first crossing; the
    crossing 27 ms later is kept. *)
Example burst_collapses_to_first_crossing :
  min_interval_filter (1 # 100) [(1 # 1000)%Q; (4 # 1000)%Q; (28 # 1000)%Q]
  = [(1 # 1000)%Q; (28 # 1000)%Q].
Proof. reflexivity. Qed.

(** A one-sample trace is squeezed to a zero-dimensional array, on which
    [np.diff] raises. *)
Example one_sample_trace_raises :
  (generate_trigger_timestamps (L := test_library) falling_trigger
     (session_of (mkRecording [(PyStr "ANALOG-IN-1", [40000])] 1000 1)
                 two_channel_amplifier)).2
  = Raise (Exn ValueError
             "diff requires input that is at least one dimensional" None).
Proof. reflexivity. Qed.

(** ** Further properties of trigger detection *)

Section TriggerDetectionFurther.

Context {L : Library}.

Lemma where_eq_from_spec start v d i :
  i ∈ where_eq_from start v d
  <-> exists k : nat, i = start + Z.of_nat k /\ d !! k = Some v.
Proof.
  revert start. induction d as [|x d IH]; intros start; simpl.
  - rewrite elem_of_nil. split; [done|]. by intros (k & _ & ?).
  - assert (i ∈ where_eq_from (start + 1) v d
            <-> exists k : nat, i = start + Z.of_nat (S k) /\ d !! k = Some v)
      as Hrest.
    { rewrite IH. split; intros (k & -> & Hk); exists k; split; [lia|done|lia|done]. }
    case_decide as Hx; rewrite ?elem_of_cons, Hrest.
    + split.
      * intros [->|(k & -> & Hk)]; [exists 0%nat|exists (S k)]; simpl.
        -- split; [lia|by subst].
        -- done.
      * intros ([|k] & -> & Hk); [left; lia|right; by exists k].
    + split.
      * intros (k & -> & Hk). by exists (S k).
      * intros ([|k] & -> & Hk); simpl in Hk; [congruence|by exists k].
Qed.

Lemma diff1_lookup xs k x :
  diff1 xs !! k = Some x
  <-> exists a b, xs !! k = Some a /\ xs !! S k = Some b /\ x = b - a.
Proof.
  revert k. induction xs as [|a [|b xs] IH]; intros k.
  - simpl. split; [done|]. by intros (? & ? & ? & _).
  - simpl. split; [done|]. intros (? & ? & _ & H & _). by destruct k.
  - change (diff1 (a :: b :: xs)) with ((b - a) :: diff1 (b :: xs)).
    destruct k as [|k].
    + simpl. split.
      * intros [= <-]. by exists a, b.
      * intros (a' & b' & [= <-] & [= <-] & ->). done.
    + change (((b - a) :: diff1 (b :: xs)) !! S k) with (diff1 (b :: xs) !! k).
      rewrite IH. done.
Qed.

Lemma diff1_length xs : length (diff1 xs) = Nat.pred (length xs).
Proof.
  induction xs as [|a [|b xs] IH]; [done|done|].
  change (diff1 (a :: b :: xs)) with ((b - a) :: diff1 (b :: xs)).
  simpl length in *. by rewrite IH.
Qed.

Lemma where_eq_from_length start v d :
  (length (where_eq_from start v d) <= length d)%nat.
Proof.
  revert start. induction d as [|x d IH]; intros start; simpl; [done|].
  specialize (IH (start + 1)). case_decide; simpl; lia.
Qed.

Lemma under_cases thr x :
  (under thr x = 1 /\ (inject_Z x < thr)%Q)
  \/ (under thr x = 0 /\ (thr <= inject_Z x)%Q).
Proof. unfold under. destruct (Qlt_le_dec (inject_Z x) thr); auto. Qed.

(** The candidate crossings, sample by sample. *)
Lemma candidate_timestamps_spec column frequency t (q : Q) :
  q ∈ candidate_timestamps column frequency t
  <-> exists (k : nat) a b,
        q = (inject_Z (Z.of_nat k) / frequency)%Q
        /\ column !! k = Some a /\ column !! S k = Some b
        /\ under (threshold t) b - under (threshold t) a = edge t.
Proof.
  unfold candidate_timestamps, samples_to_seconds, np_where_eq.
  rewrite list_elem_of_fmap. split.
  - intros (i & -> & Hi). apply where_eq_from_spec in Hi as (k & -> & Hk).
    apply diff1_lookup in Hk as (ua & ub & Ha & Hb & Hd).
    rewrite !list_lookup_fmap in Ha, Hb.
    destruct (column !! k) as [a|] eqn:Eka; [|done].
    destruct (column !! S k) as [b|] eqn:Ekb; [|done].
    simpl in *. injection Ha as <-. injection Hb as <-.
    exists k, a, b. by rewrite Z.add_0_l.
  - intros (k & a & b & -> & Ha & Hb & Hd).
    exists (Z.of_nat k). split; [done|].
    apply where_eq_from_spec. exists k. split; [lia|].
    apply diff1_lookup. exists (under (threshold t) a), (under (threshold t) b).
    rewrite !list_lookup_fmap, Ha, Hb. done.
Qed.

Lemma generate_success_timestamps (self : IntanFile) tp cid :
  let adc := _adc_channel_recording self in
  get_channel_ids adc !! Z.to_nat (trigger_channel_index tp) = Some cid ->
  0 <= trigger_channel_index tp ->
  length (get_traces adc cid) <> 1%nat ->
  (generate_trigger_timestamps tp self).2 = Return tt
  /\ trigger_timestamps (generate_trigger_timestamps tp self).1
     = min_interval_filter (min_interval (trigger tp))
         (candidate_timestamps (get_traces adc cid) (get_sampling_frequency adc)
                               (trigger tp)).
Proof.
  intros adc Hcid Hidx Hlen.
  by rewrite (generate_in_range self tp cid Hcid Hidx Hlen).
Qed.

(** X1: every stored timestamp is the time of a sample [k] at which the
    under-threshold mask steps by [edge] between samples [k] and [k+1]:
    for [edge = -1] sample [k] is under the threshold and sample [k+1] is
    not, for [edge = 1] it is the other way round. Without a minimum
    interval, every such sample is stored. *)
Theorem stored_timestamps_are_mask_steps (self : IntanFile) tp cid :
  let adc := _adc_channel_recording self in
  let signal := get_traces adc cid in
  let thr := threshold (trigger tp) in
  let stored := trigger_timestamps (generate_trigger_timestamps tp self).1 in
  let step (q : Q) :=
    exists (k : nat) a b,
      q = (inject_Z (Z.of_nat k) / get_sampling_frequency adc)%Q
      /\ signal !! k = Some a /\ signal !! S k = Some b
      /\ under thr b - under thr a = edge (trigger tp)
      /\ (edge (trigger tp) = -1 -> (inject_Z a < thr)%Q /\ (thr <= inject_Z b)%Q)
      /\ (edge (trigger tp) = 1 -> (thr <= inject_Z a)%Q /\ (inject_Z b < thr)%Q) in
  get_channel_ids adc !! Z.to_nat (trigger_channel_index tp) = Some cid ->
  0 <= trigger_channel_index tp ->
  length signal <> 1%nat ->
  (forall q, q ∈ stored -> step q)
  /\ ((min_interval (trigger tp) <= 0)%Q -> forall q, step q -> q ∈ stored).
Proof.
  intros adc signal thr stored step Hcid Hidx Hlen.
  destruct (generate_success_timestamps self tp cid Hcid Hidx Hlen) as [_ Hts].
  fold adc signal stored in Hts.
  assert (forall q, q ∈ candidate_timestamps signal (get_sampling_frequency adc)
                          (trigger tp) <-> step q) as Hstep.
  { intros q. rewrite candidate_timestamps_spec. unfold step. fold thr.
    split.
    - intros (k & a & b & Hq & Ha & Hb & Hd). exists k, a, b.
      repeat (split; [done|]).
      destruct (under_cases thr a) as [[Ea Ha']|[Ea Ha']];
        destruct (under_cases thr b) as [[Eb Hb']|[Eb Hb']];
        rewrite Ea, Eb in Hd; split; intros He; rewrite He in Hd;
        first [done | lia].
    - intros (k & a & b & Hq & Ha & Hb & Hd & _). by exists k, a, b. }
  split.
  - intros q Hq. apply Hstep. rewrite Hts in Hq.
    eapply elem_of_sublist; [exact Hq|apply min_interval_filter_sublist].
  - intros Hmi q Hq. rewrite Hts, min_interval_filter_disabled by done.
    by apply Hstep.
Qed.


(** X3: a signal that stays on one side of the threshold gives no
    timestamp, for every non-zero [edge]. *)
Theorem one_sided_signal_detects_nothing (self : IntanFile) tp cid :
  let adc := _adc_channel_recording self in
  let thr := threshold (trigger tp) in
  get_channel_ids adc !! Z.to_nat (trigger_channel_index tp) = Some cid ->
  0 <= trigger_channel_index tp ->
  length (get_traces adc cid) <> 1%nat ->
  edge (trigger tp) <> 0 ->
  Forall (fun x => (inject_Z x < thr)%Q) (get_traces adc cid)
  \/ Forall (fun x => (thr <= inject_Z x)%Q) (get_traces adc cid) ->
  trigger_timestamps (generate_trigger_timestamps tp self).1 = [].
Proof.
  intros adc thr Hcid Hidx Hlen Hedge Hside.
  destruct (generate_success_timestamps self tp cid Hcid Hidx Hlen) as [_ ->].
  fold adc.
  assert (candidate_timestamps (get_traces adc cid) (get_sampling_frequency adc)
                               (trigger tp) = []) as ->.
  { apply elem_of_nil_inv. intros q Hq.
    apply candidate_timestamps_spec in Hq as (k & a & b & _ & Ha & Hb & Hd).
    fold thr in Hd.
    apply list_elem_of_lookup_2 in Ha, Hb.
    destruct Hside as [Hside|Hside]; rewrite Forall_forall in Hside;
      apply Hside in Ha, Hb;
      destruct (under_cases thr a) as [[Ea Ha']|[Ea Ha']];
      destruct (under_cases thr b) as [[Eb Hb']|[Eb Hb']];
      rewrite Ea, Eb in Hd; first [lia | lra]. }
  by destruct (Qlt_le_dec 0 (min_interval (trigger tp))) as [Hmi|Hmi];
    [rewrite min_interval_filter_spec|rewrite min_interval_filter_disabled].
Qed.

(** X4: every stored timestamp lies inside the recording, strictly
    before the time of its last sample, and there are fewer timestamps
    than samples. *)
Theorem stored_timestamps_within_recording (self : IntanFile) tp cid :
  let adc := _adc_channel_recording self in
  let signal := get_traces adc cid in
  let f := get_sampling_frequency adc in
  let stored := trigger_timestamps (generate_trigger_timestamps tp self).1 in
  get_channel_ids adc !! Z.to_nat (trigger_channel_index tp) = Some cid ->
  0 <= trigger_channel_index tp ->
  length signal <> 1%nat ->
  (0 < f)%Q ->
  Forall (fun q => (0 <= q)%Q /\ (q < inject_Z (len signal - 1) / f)%Q) stored
  /\ (length stored <= Nat.pred (length signal))%nat.
Proof.
  intros adc signal f stored Hcid Hidx Hlen Hf.
  destruct (generate_success_timestamps self tp cid Hcid Hidx Hlen) as [_ Hts].
  fold adc signal f stored in Hts. rewrite Hts. split.
  - apply Forall_forall. intros q Hq.
    eapply elem_of_sublist in Hq; [|apply min_interval_filter_sublist].
    apply candidate_timestamps_spec in Hq as (k & a & b & -> & _ & Hb & _).
    apply lookup_lt_Some in Hb. split.
    + apply Qle_shift_div_l; [done|]. rewrite Qmult_0_l.
      change 0%Q with (inject_Z 0). rewrite <- Zle_Qle. lia.
    + apply seconds_lt; [done|]. unfold len. lia.
  - etrans; [apply sublist_length, min_interval_filter_sublist|].
    unfold candidate_timestamps, samples_to_seconds, np_where_eq.
    rewrite length_fmap. etrans; [apply where_eq_from_length|].
    by rewrite diff1_length, length_fmap.
Qed.

Lemma mask_steps_balance thr start start' x xs :
  let d := diff1 (under thr <$> (x :: xs)) in
  0 <= Z.of_nat (length (where_eq_from start 1 d))
       - Z.of_nat (length (where_eq_from start' (-1) d)) + under thr x <= 1.
Proof.
  revert start start' x. induction xs as [|y xs IH]; intros start start' x d.
  - subst d. simpl. destruct (under_cases thr x) as [[-> _]|[-> _]]; lia.
  - subst d.
    change (diff1 (under thr <$> x :: y :: xs))
      with ((under thr y - under thr x) :: diff1 (under thr <$> y :: xs)).
    specialize (IH (start + 1) (start' + 1) y). simpl in IH. simpl.
    destruct (under_cases thr x) as [[-> _]|[-> _]];
      destruct (under_cases thr y) as [[Ey _]|[Ey _]]; rewrite Ey in *;
      repeat case_decide; simpl length; lia.
Qed.

(** X5: on one signal and one threshold, and without a minimum interval,
    detection with [edge = 1] and detection with [edge = -1] store numbers
    of timestamps that differ by at most one. *)
Theorem rising_and_falling_counts_differ_by_one (self : IntanFile) tp_up tp_down cid :
  let adc := _adc_channel_recording self in
  let up := trigger_timestamps (generate_trigger_timestamps tp_up self).1 in
  let down := trigger_timestamps (generate_trigger_timestamps tp_down self).1 in
  get_channel_ids adc !! Z.to_nat (trigger_channel_index tp_up) = Some cid ->
  0 <= trigger_channel_index tp_up ->
  trigger_channel_index tp_down = trigger_channel_index tp_up ->
  length (get_traces adc cid) <> 1%nat ->
  threshold (trigger tp_down) = threshold (trigger tp_up) ->
  edge (trigger tp_up) = 1 -> edge (trigger tp_down) = -1 ->
  (min_interval (trigger tp_up) <= 0)%Q ->
  (min_interval (trigger tp_down) <= 0)%Q ->
  Z.abs (len up - len down) <= 1.
Proof.
  intros adc up down Hcid Hidx Hsame Hlen Hthr Hup Hdown Hmi1 Hmi2.
  assert (get_channel_ids adc !! Z.to_nat (trigger_channel_index tp_down) = Some cid)
    as Hcid' by by rewrite Hsame.
  destruct (generate_success_timestamps self tp_up cid Hcid Hidx Hlen) as [_ Hu].
  destruct (generate_success_timestamps self tp_down cid Hcid' ltac:(lia) Hlen)
    as [_ Hd].
  subst up down. rewrite Hu, Hd. fold adc.
  rewrite !min_interval_filter_disabled by done.
  unfold candidate_timestamps, samples_to_seconds, np_where_eq, len.
  rewrite !length_fmap, Hthr, Hup, Hdown.
  destruct (get_traces adc cid) as [|x xs]; [simpl; lia|].
  pose proof (mask_steps_balance (threshold (trigger tp_up)) 0 0 x xs) as H.
  cbv zeta in H.
  destruct (under_cases (threshold (trigger tp_up)) x) as [[E _]|[E _]];
    rewrite E in H; lia.
Qed.

Lemma spec_greedy_scan_idempotent mi prev cs :
  spec_greedy_scan mi prev (spec_greedy_scan mi prev cs)
  = spec_greedy_scan mi prev cs.
Proof.
  revert prev. induction cs as [|c cs IH]; intros prev; simpl; [done|].
  destruct (Qle_bool mi (c - prev)) eqn:E; [|apply IH].
  simpl. rewrite E. by rewrite IH.
Qed.

(** X6: the minimum-interval filter is idempotent: filtering timestamps
    that are already filtered removes nothing more. *)
Theorem min_interval_filter_idempotent mi timestamps :
  min_interval_filter mi (min_interval_filter mi timestamps)
  = min_interval_filter mi timestamps.
Proof.
  destruct (Qlt_le_dec 0 mi) as [Hmi|Hmi].
  - rewrite !min_interval_filter_spec by done.
    destruct timestamps as [|c cs]; [done|]. simpl.
    by rewrite spec_greedy_scan_idempotent.
  - by rewrite !min_interval_filter_disabled.
Qed.

(** The two ways [generate_trigger_timestamps] ends. *)
Lemma generate_cases (self : IntanFile) tp :
  (exists msg,
     generate_trigger_timestamps tp self
     = (set_timestamps_parameters (Some tp) self, Raise (Exn ValueError msg None)))
  \/ (exists ts,
        generate_trigger_timestamps tp self
        = (set_trigger_timestamps ts (set_timestamps_parameters (Some tp) self),
           Return tt)).
Proof.
  set (ids := get_channel_ids (_adc_channel_recording self)).
  destruct (decide (trigger_channel_index tp < 0
                    \/ len ids <= trigger_channel_index tp)) as [Hout|Hin].
  { left. eexists. by apply generate_out_of_range. }
  assert (is_Some (ids !! Z.to_nat (trigger_channel_index tp))) as [cid Hcid].
  { apply lookup_lt_is_Some. unfold len in Hin. lia. }
  destruct (decide (length (get_traces (_adc_channel_recording self) cid) = 1%nat))
    as [Hone|Hlen].
  - left. eexists.
    unfold generate_trigger_timestamps, bind, modify, get_state. simpl.
    fold ids.
    destruct ((trigger_channel_index tp <? 0)
              || (trigger_channel_index tp >=? len ids))%Z eqn:E.
    { apply orb_true_iff in E as [E|E]; lia. }
    rewrite Hcid.
    destruct (get_traces (_adc_channel_recording self) cid) as [|x [|y column]];
      simpl in *; [done| |done].
    reflexivity.
  - right. eexists. apply (generate_in_range self tp cid); [done|lia|done].
Qed.

(** X7: trigger detection writes two fields of the session and no other:
    [_timestamps_parameters], which holds the parameters of the call even
    when the call raises, and [trigger_timestamps], which is as before
    whenever the call raises. The only exceptions are [ValueError]s. *)
Theorem detection_writes_two_fields (self : IntanFile) tp :
  let run := generate_trigger_timestamps tp self in
  _timestamps_parameters run.1 = Some tp
  /\ (forall e, run.2 = Raise e ->
        exn_cls e = ValueError
        /\ trigger_timestamps run.1 = trigger_timestamps self)
  /\ set_trigger_timestamps (trigger_timestamps self)
       (set_timestamps_parameters (_timestamps_parameters self) run.1) = self.
Proof.
  intros run. unfold run.
  destruct (generate_cases self tp) as [[msg ->]|[ts ->]]; simpl.
  - split; [done|]. split; [by intros e [= <-]|]. by destruct self.
  - split; [done|]. split; [done|]. by destruct self.
Qed.

(** X8: trigger detection can be repeated: a second call with the same
    parameters ends like the first and leaves the session as the first
    left it; the timestamps of a call do not depend on the timestamps or
    parameters stored before. *)
Theorem detection_repeatable (self : IntanFile) tp old_ts old_tp :
  let run := generate_trigger_timestamps tp self in
  generate_trigger_timestamps tp run.1 = run
  /\ generate_trigger_timestamps tp
       (set_trigger_timestamps old_ts (set_timestamps_parameters old_tp self))
     = (if run.2 is Return _ then run.1 else set_trigger_timestamps old_ts run.1,
        run.2).
Proof.
  intros run. unfold run.
  destruct (generate_cases self tp) as [[msg Hrun]|[ts Hrun]].
  - assert (forall self' : IntanFile,
              _adc_channel_recording self' = _adc_channel_recording self ->
              generate_trigger_timestamps tp self'
              = (set_timestamps_parameters (Some tp) self',
                 Raise (Exn ValueError msg None))) as Hsame.
    { intros self' Hadc.
      unfold generate_trigger_timestamps, bind, modify, get_state in *.
      simpl in *. rewrite Hadc.
      destruct ((trigger_channel_index tp <? 0)
                || (trigger_channel_index tp
                    >=? len (get_channel_ids (_adc_channel_recording self))))%Z;
        [by injection Hrun as <-|].
      destruct (get_channel_ids (_adc_channel_recording self)
                  !! Z.to_nat (trigger_channel_index tp)) as [cid|]; [|done].
      destruct (np_diff _) as [d|e]; [done|]. by injection Hrun as <-. }
    rewrite Hrun. simpl. split.
    + by rewrite Hsame by done.
    + by rewrite Hsame by done.
  - assert (forall self' : IntanFile,
              _adc_channel_recording self' = _adc_channel_recording self ->
              generate_trigger_timestamps tp self'
              = (set_trigger_timestamps ts
                   (set_timestamps_parameters (Some tp) self'),
                 Return tt)) as Hsame.
    { intros self' Hadc.
      unfold generate_trigger_timestamps, bind, modify, get_state in *.
      simpl in *. rewrite Hadc.
      destruct ((trigger_channel_index tp <? 0)
                || (trigger_channel_index tp
                    >=? len (get_channel_ids (_adc_channel_recording self))))%Z;
        [done|].
      destruct (get_channel_ids (_adc_channel_recording self)
                  !! Z.to_nat (trigger_channel_index tp)) as [cid|]; [|done].
      destruct (np_diff _) as [d|e]; [|done].
      simpl in *. by injection Hrun as <-. }
    rewrite Hrun. simpl. split.
    + by rewrite Hsame by done.
    + by rewrite Hsame by done.
Qed.

Lemma gaps_extend (mi : Q) (l : list Q) :
  (0 < mi)%Q ->
  (forall k a b, l !! k = Some a -> l !! S k = Some b -> (mi <= b - a)%Q) ->
  forall (n i : nat) a b,
    l !! i = Some a -> l !! (i + S n)%nat = Some b -> (mi <= b - a)%Q.
Proof.
  intros Hmi Hadj n. induction n as [|n IH]; intros i a b Ha Hb.
  - rewrite Nat.add_1_r in Hb. by apply (Hadj i).
  - assert (is_Some (l !! (i + S n)%nat)) as [c Hc].
    { apply lookup_lt_is_Some. apply lookup_lt_Some in Hb. lia. }
    pose proof (IH i a c Ha Hc) as H1.
    replace (i + S (S n))%nat with (S (i + S n)) in Hb by lia.
    pose proof (Hadj _ c b Hc Hb) as H2. lra.
Qed.

(** X9: with a positive minimum interval, any two stored timestamps, not
    only neighbours, are at least [min_interval] apart. *)
Theorem stored_timestamps_pairwise_apart (self : IntanFile) tp cid :
  let adc := _adc_channel_recording self in
  let mi := min_interval (trigger tp) in
  let stored := trigger_timestamps (generate_trigger_timestamps tp self).1 in
  get_channel_ids adc !! Z.to_nat (trigger_channel_index tp) = Some cid ->
  0 <= trigger_channel_index tp ->
  length (get_traces adc cid) <> 1%nat ->
  (0 < mi)%Q ->
  forall (i j : nat) a b,
    (i < j)%nat -> stored !! i = Some a -> stored !! j = Some b ->
    (mi <= b - a)%Q.
Proof.
  intros adc mi stored Hcid Hidx Hlen Hmi i j a b Hij Ha Hb.
  destruct (generate_success_timestamps self tp cid Hcid Hidx Hlen) as [_ Hts].
  fold adc mi stored in Hts. rewrite Hts in Ha, Hb.
  rewrite min_interval_filter_spec in Ha, Hb by done.
  replace j with (i + S (j - i - 1))%nat in Hb by lia.
  eapply (gaps_extend mi); [done| |exact Ha|exact Hb].
  intros k x y.
  destruct (candidate_timestamps _ _ _) as [|c cs]; simpl; [by destruct k|].
  apply spec_greedy_scan_gaps.
Qed.

End TriggerDetectionFurther.

(** ** Further properties of probe alignment *)

Section ProbeAlignmentFurther.

Context {L : Library}.

Lemma kept_contact_ids wanted df :
  let ids := contact_ids <$> drop_duplicates (filter_isin wanted df) in
  NoDup ids
  /\ forall c, c ∈ ids <-> c ∈ contact_ids <$> df /\ c ∈ wanted.
Proof.
  intros ids. split; [apply drop_duplicates_from_NoDup|].
  intros c. unfold ids, drop_duplicates.
  rewrite drop_duplicates_from_ids, filter_isin_ids, elem_of_nil. tauto.
Qed.

(** The count check of [associate_probe] passes exactly when the wanted
    ids are pairwise distinct and each of them is a contact id of the
    table. *)
Lemma count_check_passes wanted df :
  length (drop_duplicates (filter_isin wanted df)) = length wanted
  <-> NoDup wanted /\ forall w, w ∈ wanted -> w ∈ contact_ids <$> df.
Proof.
  destruct (kept_contact_ids wanted df) as [Hnodup Hids].
  set (ids := contact_ids <$> drop_duplicates (filter_isin wanted df)) in *.
  assert (length ids = length (drop_duplicates (filter_isin wanted df))) as Hlen
    by apply length_fmap.
  rewrite <- Hlen.
  assert (ids ⊆+ wanted) as Hsub.
  { apply NoDup_submseteq; [done|]. intros c Hc. by apply Hids in Hc as [_ ?]. }
  split.
  - intros Heq.
    assert (ids ≡ₚ wanted) as Hperm
      by (apply submseteq_length_Permutation; [done|lia]).
    split; [by rewrite <- Hperm|].
    intros w Hw. rewrite <- Hperm in Hw. by apply Hids in Hw as [? _].
  - intros [Hw Hall]. apply Nat.le_antisymm; [by apply submseteq_length|].
    apply submseteq_length, NoDup_submseteq; [done|].
    intros w Hin. apply Hids. auto.
Qed.

Lemma contact_ids_astype_str_idempotent df :
  contact_ids_astype_str (contact_ids_astype_str df) = contact_ids_astype_str df.
Proof.
  apply contact_ids_astype_str_strings, Forall_forall.
  intros r Hr. unfold contact_ids_astype_str in Hr.
  apply list_elem_of_fmap in Hr as (r0 & -> & _). by eexists.
Qed.

Lemma associate_probe_dump probe (self : IntanFile) st df aligned :
  frames st !! _dataframe probe = Some df ->
  align_dataframe (channel_ids self) (contact_ids_astype_str df) = Return aligned ->
  files (associate_probe probe (self, st)).1.2
  = <["probe_dataframe_dump.txt" := aligned]> (files st).
Proof.
  intros Hdf Halign. rewrite (associate_probe_unfold _ _ _ _ Hdf), Halign. simpl.
  destruct (from_dataframe aligned) as [p|e]; [|done].
  by destruct (set_probe _ _) as [rec|e].
Qed.

(** X10: [associate_probe] raises the count-mismatch error whenever two
    channel ids have the same string form or the string form of a channel
    id is no contact id of the string-normalised table, and then writes
    no dump; in every other case the count check passes and the dump is
    written. Partial overlaps and duplicate channels are refused,
    contacts without a channel are not. *)
Theorem count_mismatch_iff_not_one_to_one (self : IntanFile) st probe df :
  let wanted := (fun ch => PyStr (py_str ch)) <$> channel_ids self in
  let table_ids := (fun r => PyStr (py_str (contact_ids r))) <$> df in
  let kept := drop_duplicates (filter_isin wanted (contact_ids_astype_str df)) in
  let run := associate_probe probe (self, st) in
  frames st !! _dataframe probe = Some df ->
  (~ (NoDup wanted /\ forall w, w ∈ wanted -> w ∈ table_ids) ->
   len kept <> len (channel_ids self)
   /\ run.2 = Raise (Exn ValueError
                       (mismatch_message (len kept) (len (channel_ids self))) None)
   /\ files run.1.2 = files st)
  /\ (NoDup wanted /\ (forall w, w ∈ wanted -> w ∈ table_ids) ->
      exists aligned,
        align_dataframe (channel_ids self) (contact_ids_astype_str df)
        = Return aligned
        /\ files run.1.2 !! "probe_dataframe_dump.txt" = Some aligned).
Proof.
  intros wanted table_ids kept run Hdf. unfold run.
  pose proof (count_check_passes wanted (contact_ids_astype_str df)) as Hcheck.
  destruct (contact_ids_astype_str_columns df) as (Hcol & _ & _).
  rewrite Hcol in Hcheck. fold table_ids kept in Hcheck. rewrite <- Hcheck.
  assert (length wanted = length (channel_ids self)) as Hw
    by (unfold wanted; apply length_fmap).
  split.
  - intros Hno.
    assert (len kept <> len (channel_ids self)) as Hne
      by (unfold len; intros ?; apply Hno; lia).
    split; [done|].
    rewrite (associate_probe_unfold _ _ _ _ Hdf).
    rewrite align_dataframe_mismatch by done. done.
  - intros Heq.
    assert (len kept = len (channel_ids self)) as Hlen by (unfold len; lia).
    eexists. split; [by apply align_dataframe_matching|].
    erewrite associate_probe_dump; [|done|by apply align_dataframe_matching].
    by rewrite lookup_insert_eq.
Qed.

(** X11: when the count check passes and [sort_values] permutes its rows,
    the contact ids of the aligned table are the string forms of the
    channel ids, each exactly once: contacts and channels are in
    one-to-one correspondence. *)
Theorem aligned_contacts_are_the_channels (self : IntanFile) st probe df aligned :
  let wanted := (fun ch => PyStr (py_str ch)) <$> channel_ids self in
  (forall d, sort_values d ≡ₚ d) ->
  frames st !! _dataframe probe = Some df ->
  align_dataframe (channel_ids self) (contact_ids_astype_str df) = Return aligned ->
  files (associate_probe probe (self, st)).1.2 !! "probe_dataframe_dump.txt"
  = Some aligned
  /\ contact_ids <$> aligned ≡ₚ wanted
  /\ NoDup (contact_ids <$> aligned)
  /\ length aligned = length (channel_ids self).
Proof.
  intros wanted Hperm Hdf Halign.
  split.
  { rewrite (associate_probe_dump _ _ _ _ _ Hdf Halign).
    by rewrite lookup_insert_eq. }
  set (kept := drop_duplicates (filter_isin wanted (contact_ids_astype_str df))).
  destruct (decide (len kept = len (channel_ids self))) as [Heq|Hne];
    [|by rewrite align_dataframe_mismatch in Halign].
  rewrite align_dataframe_matching in Halign by done. injection Halign as <-.
  fold wanted kept.
  assert (length wanted = length (channel_ids self)) as Hw
    by (unfold wanted; apply length_fmap).
  destruct (kept_contact_ids wanted (contact_ids_astype_str df)) as [Hnodup Hids].
  fold kept in Hnodup, Hids.
  assert (contact_ids <$> kept ≡ₚ wanted) as Hkept.
  { apply submseteq_length_Permutation.
    - apply NoDup_submseteq; [done|]. intros c Hc. by apply Hids in Hc as [_ ?].
    - rewrite length_fmap. unfold len in Heq. lia. }
  assert (contact_ids <$> renumber (sort_values kept) ≡ₚ contact_ids <$> kept)
    as Hsame.
  { unfold renumber. destruct (renumber_from_keeps 0 (sort_values kept)) as [-> _].
    by rewrite (Hperm kept). }
  split; [by rewrite Hsame|]. split; [by rewrite Hsame|].
  transitivity (length (contact_ids <$> renumber (sort_values kept)));
    [by rewrite length_fmap|].
  rewrite Hsame, length_fmap. unfold len in Heq. lia.
Qed.

(** The states [associate_probe] can end in. *)
Lemma associate_probe_states (self : IntanFile) st probe :
  let run := associate_probe probe (self, st) in
  (run.1.1 = set_probe_field (Some (WrapperProbe probe)) self
   \/ (exists p, run.1.1 = set_probe_field (Some (AlignedProbe p)) self)
   \/ (exists p rec,
         run.1.1 = set_signed_amplifier_channel_recording rec
                     (set_probe_field (Some (AlignedProbe p)) self)))
  /\ (run.1.2 = st
      \/ (exists df, run.1.2 = set_frames (<[_dataframe probe := df]> (frames st)) st)
      \/ (exists df aligned,
            run.1.2 = set_files (<["probe_dataframe_dump.txt" := aligned]> (files st))
                        (set_frames (<[_dataframe probe := df]> (frames st)) st))).
Proof.
  intros run. unfold run.
  destruct (frames st !! _dataframe probe) as [df|] eqn:Hdf.
  - rewrite (associate_probe_unfold _ _ _ _ Hdf). simpl.
    destruct (align_dataframe _ _) as [aligned|e]; simpl.
    2: { split; [by left|]. right. left. by eexists. }
    destruct (from_dataframe aligned) as [p|e]; simpl.
    2: { split; [by left|]. right. right. by eexists _, _. }
    destruct (set_probe _ _) as [rec|e]; simpl.
    + split; [|right; right; by eexists _, _].
      right. right. exists p, rec. by destruct self.
    + split; [|right; right; by eexists _, _].
      right. left. exists p. by destruct self.
  - unfold associate_probe, bind, modify, get_state. simpl. rewrite Hdf. simpl.
    split; by left.
Qed.

Lemma associate_probe_session (self : IntanFile) st probe :
  let run := associate_probe probe (self, st) in
  trigger_timestamps run.1.1 = trigger_timestamps self
  /\ channel_ids run.1.1 = channel_ids self
  /\ params_dicts run.1.2 = params_dicts st
  /\ step_dicts run.1.2 = step_dicts st.
Proof.
  intros run.
  destruct (associate_probe_states self st probe) as [Hself Hst].
  fold run in Hself, Hst.
  destruct Hself as [->|[[p ->]|(p & rec & ->)]];
    destruct Hst as [->|[[df ->]|(df & aligned & ->)]]; done.
Qed.

(** X12: [associate_probe] leaves the session as it was except for
    [_probe] and [_signed_amplifier_channel_recording], and the store as
    it was except for the probe's table and the dump file, whatever it
    returns or raises: trigger timestamps, channel ids, the raw
    recordings, earlier pipeline outputs and the protocol dictionaries
    are not touched. *)
Theorem associate_probe_touches_probe_only (self : IntanFile) st probe :
  let run := associate_probe probe (self, st) in
  set_probe_field (_probe self)
    (set_signed_amplifier_channel_recording
       (_signed_amplifier_channel_recording self) run.1.1) = self
  /\ params_dicts run.1.2 = params_dicts st
  /\ step_dicts run.1.2 = step_dicts st
  /\ (forall l, l <> _dataframe probe -> frames run.1.2 !! l = frames st !! l)
  /\ (forall f, f <> "probe_dataframe_dump.txt" ->
                files run.1.2 !! f = files st !! f).
Proof.
  intros run.
  destruct (associate_probe_states self st probe) as [Hself Hst].
  fold run in Hself, Hst.
  split.
  { destruct Hself as [->|[[p ->]|(p & rec & ->)]]; by destruct self. }
  destruct Hst as [->|[[df ->]|(df & aligned & ->)]]; simpl;
    repeat split; try done; intros x Hx; by rewrite lookup_insert_ne.
Qed.

(** X13: alignment can be repeated: a second [associate_probe] with the
    same probe finds the table as the first call left it, raises the
    count-mismatch error if and only if the first call did, and leaves
    the store, dump included, as the first call left it. *)
Theorem associate_probe_repeatable (self : IntanFile) st probe df :
  let run1 := associate_probe probe (self, st) in
  let run2 := associate_probe probe run1.1 in
  frames st !! _dataframe probe = Some df ->
  run2.1.2 = run1.1.2
  /\ align_dataframe (channel_ids run1.1.1)
       (contact_ids_astype_str (contact_ids_astype_str df))
     = align_dataframe (channel_ids self) (contact_ids_astype_str df)
  /\ (forall e, align_dataframe (channel_ids self) (contact_ids_astype_str df)
                = Raise e ->
                run1.2 = Raise e /\ run2.2 = Raise e).
Proof.
  intros run1 run2 Hdf.
  destruct (associate_probe_session self st probe) as (_ & Hids & Hp & Hs).
  fold run1 in Hids, Hp, Hs.
  assert (frames run1.1.2
          = <[_dataframe probe := contact_ids_astype_str df]> (frames st))
    as Hframes by by apply associate_probe_frames.
  assert (frames run1.1.2 !! _dataframe probe = Some (contact_ids_astype_str df))
    as Hdf1 by by rewrite Hframes, lookup_insert_eq.
  rewrite Hids, contact_ids_astype_str_idempotent.
  split; [|split; [done|]].
  - unfold run2.
    destruct run1.1 as [self1 st1] eqn:E1. simpl in *.
    pose proof (associate_probe_frames probe self1 st1 _ Hdf1) as Hframes2.
    rewrite contact_ids_astype_str_idempotent in Hframes2.
    destruct (associate_probe_session self1 st1 probe) as (_ & _ & Hp2 & Hs2).
    assert (files (associate_probe probe (self1, st1)).1.2 = files st1) as Hfiles2.
    { assert (st1 = run1.1.2) as Hst1 by by rewrite E1.
      destruct (align_dataframe (channel_ids self) (contact_ids_astype_str df))
        as [aligned|e] eqn:Halign.
      - rewrite (associate_probe_dump probe self1 st1 _ aligned Hdf1)
          by by rewrite contact_ids_astype_str_idempotent, Hids.
        rewrite Hst1. unfold run1.
        rewrite (associate_probe_dump probe self st df aligned Hdf Halign).
        by rewrite insert_insert_eq.
      - rewrite (associate_probe_unfold _ _ _ _ Hdf1).
        by rewrite contact_ids_astype_str_idempotent, Hids, Halign. }
    destruct ((associate_probe probe (self1, st1)).1.2) as [f2 p2 s2 d2] eqn:E2.
    destruct st1 as [f1 p1 s1 d1]. simpl in *.
    rewrite Hframes2, Hp2, Hs2, Hfiles2. f_equal.
    apply insert_id. by rewrite Hdf1.
  - intros e He. split.
    + unfold run1. by rewrite (associate_probe_unfold _ _ _ _ Hdf), He.
    + unfold run2. destruct run1.1 as [self1 st1] eqn:E1. simpl in *.
      rewrite (associate_probe_unfold _ _ _ _ Hdf1).
      by rewrite contact_ids_astype_str_idempotent, Hids, He.
Qed.

(** X14: the dump is written before the probe object is built: when
    [from_dataframe] raises, [associate_probe] raises the same exception,
    the aligned table is on disk, [_probe] holds the caller's wrapper and
    the amplifier recording has no new probe. *)
Theorem probe_construction_fails_after_dump (self : IntanFile) st probe df aligned e :
  let run := associate_probe probe (self, st) in
  frames st !! _dataframe probe = Some df ->
  align_dataframe (channel_ids self) (contact_ids_astype_str df) = Return aligned ->
  from_dataframe aligned = Raise e ->
  run.2 = Raise e
  /\ files run.1.2 !! "probe_dataframe_dump.txt" = Some aligned
  /\ run.1.1 = set_probe_field (Some (WrapperProbe probe)) self.
Proof.
  intros run Hdf Halign Hfrom. unfold run.
  rewrite (associate_probe_unfold _ _ _ _ Hdf), Halign. simpl. rewrite Hfrom.
  simpl. by rewrite lookup_insert_eq.
Qed.

End ProbeAlignmentFurther.

(** ** Further properties of the pipeline *)

Section PipelineFurther.

Context {L : Library}.

Lemma dict_keys_set {V} k (v : V) d :
  dict_keys (dict_set k v d)
  = if decide (k ∈ dict_keys d) then dict_keys d else (dict_keys d ++ [k])%list.
Proof.
  unfold dict_keys. induction d as [|[k' v'] d IH].
  - destruct (decide (k ∈ ([] : dict V).*1)) as [Hin|_]; [|done].
    by apply elem_of_nil in Hin.
  - change (dict_set k v ((k', v') :: d))
      with (if decide (k = k') then (k, v) :: d else (k', v') :: dict_set k v d).
    destruct (decide (k = k')) as [->|Hk].
    + destruct (decide (k' ∈ ((k', v') :: d).*1)) as [_|Hn]; [done|].
      exfalso. apply Hn. by left.
    + rewrite fmap_cons, IH, fmap_cons. simpl.
      destruct (decide (k ∈ d.*1)) as [Hin|Hnin];
        destruct (decide (k ∈ k' :: d.*1)) as [Hin'|Hnin']; try done.
      * exfalso. apply Hnin'. by right.
      * apply elem_of_cons in Hin' as [?|?]; done.
Qed.

Lemma dict_get_keys {V} k (d : dict V) : dict_get k d = None <-> k ∉ dict_keys d.
Proof.
  unfold dict_keys. induction d as [|[k' v'] d IH]; simpl.
  - split; [intros _; apply not_elem_of_nil|done].
  - rewrite not_elem_of_cons. case_decide; [|tauto]. split; [done|]. tauto.
Qed.

(** The stage run by a pipeline whose protocol is a copy of a protocol
    with existing dictionaries: the copy, the store after the injection,
    the mapping the stage reads, and how the run ends. *)
Lemma pipeline_copy_state sorter folder protocol (rhs : IntanFile) st view pre :
  read_protocol st protocol = Some view ->
  dict_get "preprocessing" view = Some pre ->
  let pre' := if decide (trigger_timestamps rhs = []) then pre
              else dict_set "remove_artifacts"
                     [("list_triggers", PArray (trigger_timestamps rhs));
                      ("mode", PStr "zeros")] pre in
  exists st1 copy l st2,
    deepcopy protocol st = (st1, Return copy)
    /\ store_extends st st2
    /\ read_protocol st1 copy = Some view
    /\ params_dicts st2 = params_dicts st1
    /\ params_section "preprocessing" copy st2 = (st2, Return (l, pre'))
    /\ let self :=
         mkPipeline sorter copy
           (os_path_join folder ("Sorting_pipeline_" +:+ name sorter))
           (os_path_join folder ("Analyzer_binary_pipeline_" +:+ name sorter)) in
       Pipeline_new sorter folder protocol (rhs, st) = ((rhs, st1), Return self)
       /\ Pipeline_init sorter folder protocol (rhs, st)
          = match Pipeline__pipeline_sorter_analyzer self (rhs, st2) with
            | (s3, Return _) => (s3, Return self)
            | (s3, Raise e) => (s3, Raise e)
            end.
Proof.
  intros Hread Hpre pre'.
  destruct (deepcopy_copies _ _ _ Hread) as (st1 & copy & Hcopy & Hread1 & _).
  destruct (section_of_view _ _ _ _ _ Hread1 Hpre) as (d1 & l & Hd1 & Hl & Hsteps).
  destruct (Pipeline_init_unfold sorter folder protocol rhs st st1 copy Hcopy)
    as [Hnew Hinit].
  destruct (deepcopy_frame _ _ _ _ Hcopy) as [Hext1 Hfresh].
  destruct (Hfresh copy eq_refl) as (_ & d' & Hd' & Hall).
  rewrite Hd1 in Hd'. injection Hd' as <-.
  set (st2 := if decide (trigger_timestamps rhs = []) then st1
              else set_step_dicts (<[l := pre']> (step_dicts st1)) st1).
  exists st1, copy, l, st2.
  split; [done|]. split.
  { unfold st2. case_decide; [done|].
    apply dict_get_elem_of in Hl. rewrite Forall_forall in Hall.
    apply Hall in Hl. simpl in Hl.
    destruct Hext1 as (Hf & Hd & Hp & Hs). repeat split; simpl; try done.
    by apply insert_subseteq_r. }
  split; [done|].
  assert (params_dicts st2 = params_dicts st1) as Hparams
    by (unfold st2; by case_decide).
  split; [done|]. split.
  { unfold params_section, bind, get_state. simpl.
    rewrite Hparams, Hd1, Hl.
    assert (step_dicts st2 !! l = Some pre') as ->; [|done].
    unfold st2, pre'. case_decide; [done|]. simpl. by rewrite lookup_insert_eq. }
  split; [done|]. rewrite Hinit.
  rewrite (remove_artifacts_spec
             (mkPipeline sorter copy
                (os_path_join folder ("Sorting_pipeline_" +:+ name sorter))
                (os_path_join folder ("Analyzer_binary_pipeline_" +:+ name sorter)))
             rhs st1 d1 l pre Hd1 Hl Hsteps).
  unfold st2, pre'. by case_decide.
Qed.

(** How [preprocess_sort_dedup] ends: nothing stored, or the preprocessed
    recording stored, or the preprocessed recording and the curated
    sorting stored and both returned. *)
Lemma preprocess_sort_dedup_cases self (rhs : IntanFile) st :
  let run := preprocess_sort_dedup self (rhs, st) in
  (exists e, run = ((rhs, st), Raise e))
  \/ (exists rec e,
        run = ((set_pre_processed_signed_amplifier_channel_recording (Some rec) rhs,
                st), Raise e))
  \/ (exists rec dedup,
        run = ((set_sorting_dedup (Some dedup)
                  (set_pre_processed_signed_amplifier_channel_recording
                     (Some rec) rhs), st),
               Return (rec, dedup))).
Proof.
  unfold preprocess_sort_dedup, bind, get_state, on_store, on_session, modify,
    lift_outcome. simpl.
  pose proof (params_section_reads "preprocessing" (_protocol self) st) as Hst.
  destruct (params_section "preprocessing" (_protocol self) st) as [st' [pre|e]];
    simpl in Hst; subst st'; [|left; by eexists].
  destruct (apply_preprocessing_pipeline _ _) as [rec0|e]; [|left; by eexists].
  destruct (_probe rhs) as [p|].
  - destruct (set_probe rec0 p) as [rec|e]; [|left; by eexists].
    simpl.
    destruct (run_sorter _ _ _) as [sorting|e]; [|right; left; by eexists _, _].
    destruct (remove_duplicated_spikes sorting) as [dedup|e];
      [right; right|right; left]; by eexists _, _.
  - simpl.
    destruct (run_sorter _ _ _) as [sorting|e]; [|right; left; by eexists _, _].
    destruct (remove_duplicated_spikes sorting) as [dedup|e];
      [right; right|right; left]; by eexists _, _.
Qed.

(** How the stage [__pipeline_sorter_analyzer] ends. *)
Lemma pipeline_sorter_analyzer_cases self (rhs : IntanFile) st :
  let run := Pipeline__pipeline_sorter_analyzer self (rhs, st) in
  let with_rec rec :=
    set_pre_processed_signed_amplifier_channel_recording (Some rec) rhs in
  (exists e, run = ((rhs, st), Raise e))
  \/ (exists rec e, run = ((with_rec rec, st), Raise e))
  \/ (exists rec dedup e,
        run = ((set_sorting_dedup (Some dedup) (with_rec rec), st), Raise e))
  \/ (exists rec dedup analyzer,
        run = ((set_computed_analyzer_result (Some analyzer)
                  (set_sorting_dedup (Some dedup) (with_rec rec)), st),
               Return tt)).
Proof.
  intros run with_rec. unfold run, Pipeline__pipeline_sorter_analyzer.
  unfold bind, create_analyzer, try_except, lift_outcome, on_store, on_session,
    modify.
  destruct (preprocess_sort_dedup_cases self rhs st)
    as [[e ->]|[(rec & e & ->)|(rec & dedup & ->)]].
  { left. by eexists. }
  { right. left. by eexists _, _. }
  right. right. simpl.
  destruct (create_sorting_analyzer rec dedup (_output_analyzer_folder self))
    as [a|e].
  2: { left. destruct (is_ValueError e); [destruct (str_in _ _)|];
       by eexists _, _, _. }
  simpl.
  pose proof (params_section_reads "postprocessing" (_protocol self) st) as Hst.
  destruct (params_section "postprocessing" (_protocol self) st) as [st' [post|e]];
    simpl in Hst; subst st'; [|left; by eexists _, _, _].
  destruct (compute a post.2) as [a'|e];
    [right|left]; by eexists _, _, _.
Qed.

Lemma remove_artifacts_session self (rhs : IntanFile) st :
  (Pipeline__remove_artifacts self (rhs, st)).1.1 = rhs.
Proof.
  unfold Pipeline__remove_artifacts, bind, get_state, on_store, modify, ret.
  cbv beta iota.
  destruct (decide (len (trigger_timestamps (rhs, st).1) <> 0)); [|done].
  simpl.
  by destruct (params_section "preprocessing" (_protocol self) st) as [st' [pre|e]].
Qed.

(** X15: a pipeline run stores its outputs on the session in order: the
    preprocessed recording, then the curated sorting, then the computed
    analyzer; each is stored only once the previous one is, the analyzer
    exactly when the run returns, and no other field of the session is
    written. In particular a run that raises leaves
    [_computed_analyzer_result] as it was, next to whatever it stored
    before raising. *)
Theorem pipeline_outputs_stored_in_order sorter folder protocol (rhs : IntanFile) st :
  let run := Pipeline_init sorter folder protocol (rhs, st) in
  let with_rec rec :=
    set_pre_processed_signed_amplifier_channel_recording (Some rec) rhs in
  (exists e,
     run.2 = Raise e
     /\ (run.1.1 = rhs
         \/ (exists rec, run.1.1 = with_rec rec)
         \/ (exists rec dedup,
               run.1.1 = set_sorting_dedup (Some dedup) (with_rec rec))))
  \/ (exists self rec dedup analyzer,
        run.2 = Return self
        /\ run.1.1 = set_computed_analyzer_result (Some analyzer)
                       (set_sorting_dedup (Some dedup) (with_rec rec))).
Proof.
  intros run with_rec. unfold run.
  destruct (deepcopy protocol st) as [st1 [copy|e]] eqn:Hcopy.
  2: { left. exists e. unfold Pipeline_init, Pipeline_new, bind, on_store.
       simpl. rewrite Hcopy. simpl. auto. }
  destruct (Pipeline_init_unfold sorter folder protocol rhs st st1 copy Hcopy)
    as [_ ->].
  set (self := mkPipeline sorter copy _ _).
  pose proof (remove_artifacts_session self rhs st1) as Hsession.
  destruct (Pipeline__remove_artifacts self (rhs, st1)) as [[rhs' st2] [[]|e]];
    simpl in Hsession; subst rhs'.
  2: { left. exists e. simpl. auto. }
  destruct (pipeline_sorter_analyzer_cases self rhs st2)
    as [[e ->]|[(rec & e & ->)|[(rec & dedup & e & ->)|(rec & dedup & a & ->)]]];
    simpl.
  - left. exists e. auto.
  - left. exists e. split; [done|]. right. left. by exists rec.
  - left. exists e. split; [done|]. right. right. by exists rec, dedup.
  - right. by exists self, rec, dedup, a.
Qed.

Lemma section_missing st protocol view section :
  read_protocol st protocol = Some view ->
  dict_get section view = None ->
  exists d, params_dicts st !! params protocol = Some d
            /\ dict_get section d = None.
Proof.
  intros Hread Hget. apply read_protocol_children in Hread as (d & Hd & Hall).
  exists d. split; [done|]. clear Hd.
  induction Hall as [|[k l] [k' v] d view [Hk Hl] _ IH]; [done|].
  simpl in *. subst k'. case_decide; [done|by apply IH].
Qed.

(** X16: a protocol whose [params] has no ['preprocessing'] entry makes
    every run raise [KeyError('preprocessing')], with or without trigger
    timestamps, before anything is stored on the session. *)
Theorem missing_preprocessing_key_rejected
    sorter folder protocol (rhs : IntanFile) st view :
  read_protocol st protocol = Some view ->
  dict_get "preprocessing" view = None ->
  let run := Pipeline_init sorter folder protocol (rhs, st) in
  run.2 = Raise (Exn KeyError "'preprocessing'" None) /\ run.1.1 = rhs.
Proof.
  intros Hread Hnone run. unfold run.
  destruct (deepcopy_copies _ _ _ Hread) as (st1 & copy & Hcopy & Hread1 & _).
  destruct (section_missing _ _ _ _ Hread1 Hnone) as (d1 & Hd1 & Hget).
  destruct (Pipeline_init_unfold sorter folder protocol rhs st st1 copy Hcopy)
    as [_ ->].
  set (self := mkPipeline sorter copy _ _).
  assert (params_section "preprocessing" copy st1
          = (st1, Raise (Exn KeyError "'preprocessing'" None))) as Hsection.
  { unfold params_section, bind, get_state. simpl. by rewrite Hd1, Hget. }
  destruct (decide (len (trigger_timestamps rhs) <> 0)) as [Hts|Hts].
  - assert (Pipeline__remove_artifacts self (rhs, st1)
            = ((rhs, st1), Raise (Exn KeyError "'preprocessing'" None))) as ->.
    { unfold Pipeline__remove_artifacts, bind, get_state, on_store.
      cbv beta iota. rewrite decide_True by done. simpl. by rewrite Hsection. }
    done.
  - assert (Pipeline__remove_artifacts self (rhs, st1) = ((rhs, st1), Return tt))
      as ->.
    { unfold Pipeline__remove_artifacts, bind, get_state, on_store.
      cbv beta iota. by rewrite decide_False by done. }
    assert (Pipeline__pipeline_sorter_analyzer self (rhs, st1)
            = ((rhs, st1), Raise (Exn KeyError "'preprocessing'" None))) as ->.
    { unfold Pipeline__pipeline_sorter_analyzer, preprocess_sort_dedup, bind,
        get_state, on_store. simpl. by rewrite Hsection. }
    done.
Qed.

(** X17: a protocol whose [params] has a ['preprocessing'] entry and no
    ['postprocessing'] entry makes every run raise without storing an
    analyzer; the missing key is met late: when every library call
    returns, the exception is [KeyError('postprocessing')] and the
    preprocessed recording and the curated sorting are stored by then. *)
Theorem missing_postprocessing_key_rejected
    sorter folder protocol (rhs : IntanFile) st view pre :
  read_protocol st protocol = Some view ->
  dict_get "preprocessing" view = Some pre ->
  dict_get "postprocessing" view = None ->
  let run := Pipeline_init sorter folder protocol (rhs, st) in
  (exists e, run.2 = Raise e)
  /\ _computed_analyzer_result run.1.1 = _computed_analyzer_result rhs
  /\ ((forall r d, exists r', apply_preprocessing_pipeline r d = Return r') ->
      (forall r p, exists r', set_probe r p = Return r') ->
      (forall n r f, exists s, run_sorter n r f = Return s) ->
      (forall s, exists s', remove_duplicated_spikes s = Return s') ->
      (forall r s f, exists a, create_sorting_analyzer r s f = Return a) ->
      run.2 = Raise (Exn KeyError "'postprocessing'" None)
      /\ is_Some (_pre_processed_signed_amplifier_channel_recording run.1.1)
      /\ is_Some (_sorting_dedup run.1.1)).
Proof.
  intros Hread Hpre Hnone run. unfold run.
  destruct (pipeline_copy_state sorter folder protocol rhs st view pre Hread Hpre)
    as (st1 & copy & l & st2 & Hcopy & _ & Hread1 & Hparams & Hsection & _ & ->).
  set (self := mkPipeline sorter copy _ _).
  destruct (section_missing _ _ _ _ Hread1 Hnone) as (d1 & Hd1 & Hget).
  assert (params_section "postprocessing" copy st2
          = (st2, Raise (Exn KeyError "'postprocessing'" None))) as Hpost.
  { unfold params_section, bind, get_state. simpl. by rewrite Hparams, Hd1, Hget. }
  assert (forall rec dedup,
            preprocess_sort_dedup self (rhs, st2)
            = ((set_sorting_dedup (Some dedup)
                  (set_pre_processed_signed_amplifier_channel_recording
                     (Some rec) rhs), st2), Return (rec, dedup)) ->
            exists e,
              Pipeline__pipeline_sorter_analyzer self (rhs, st2)
              = ((set_sorting_dedup (Some dedup)
                    (set_pre_processed_signed_amplifier_channel_recording
                       (Some rec) rhs), st2), Raise e)
              /\ ((exists a, create_sorting_analyzer rec dedup
                               (_output_analyzer_folder self) = Return a) ->
                  e = Exn KeyError "'postprocessing'" None)) as Htail.
  { intros rec dedup Hstages.
    unfold Pipeline__pipeline_sorter_analyzer, bind, create_analyzer, try_except,
      lift_outcome, on_store, on_session, modify.
    rewrite Hstages. simpl.
    destruct (create_sorting_analyzer _ _ _) as [a|e] eqn:Hc.
    - simpl. rewrite Hpost. by eexists.
    - destruct (is_ValueError e); [destruct (str_in _ _)|];
        (eexists; split; [reflexivity|];
         intros [a Ha]; simpl in Ha; congruence). }
  assert (forall e (s : IntanFile * Store),
            preprocess_sort_dedup self (rhs, st2) = (s, Raise e) ->
            Pipeline__pipeline_sorter_analyzer self (rhs, st2) = (s, Raise e))
    as Hearly.
  { intros e s Hstages. unfold Pipeline__pipeline_sorter_analyzer, bind.
    by rewrite Hstages. }
  split; [|split].
  - destruct (preprocess_sort_dedup_cases self rhs st2)
      as [[e He]|[(rec & e & He)|(rec & dedup & He)]].
    + rewrite (Hearly _ _ He). by eexists.
    + rewrite (Hearly _ _ He). by eexists.
    + destruct (Htail rec dedup He) as (e & -> & _). by eexists.
  - destruct (preprocess_sort_dedup_cases self rhs st2)
      as [[e He]|[(rec & e & He)|(rec & dedup & He)]].
    + by rewrite (Hearly _ _ He).
    + by rewrite (Hearly _ _ He).
    + by destruct (Htail rec dedup He) as (e & -> & _).
  - intros Happly Hset Hsort Hdedup Hcreate.
    assert (exists rec dedup,
              preprocess_sort_dedup self (rhs, st2)
              = ((set_sorting_dedup (Some dedup)
                    (set_pre_processed_signed_amplifier_channel_recording
                       (Some rec) rhs), st2), Return (rec, dedup)))
      as (rec & dedup & Hstages).
    { unfold preprocess_sort_dedup, bind, get_state, on_store, on_session, modify,
        lift_outcome, ret. simpl. rewrite Hsection. simpl.
      destruct (Happly (_signed_amplifier_channel_recording rhs)
                  (if decide (trigger_timestamps rhs = []) then pre
                   else dict_set "remove_artifacts"
                          [("list_triggers", PArray (trigger_timestamps rhs));
                           ("mode", PStr "zeros")] pre)) as [rec0 ->].
      destruct (_probe rhs) as [p|].
      - destruct (Hset rec0 p) as [rec ->]. simpl.
        destruct (Hsort (name sorter) rec
                    (os_path_join folder ("Sorting_pipeline_" +:+ name sorter)))
          as [so ->].
        destruct (Hdedup so) as [dedup ->]. by eexists _, _.
      - simpl.
        destruct (Hsort (name sorter) rec0
                    (os_path_join folder ("Sorting_pipeline_" +:+ name sorter)))
          as [so ->].
        destruct (Hdedup so) as [dedup ->]. by eexists _, _. }
    destruct (Htail rec dedup Hstages) as (e & -> & He). simpl.
    rewrite He by apply Hcreate. split; [done|]. split; by eexists.
Qed.

Lemma pipeline_final_store sorter folder protocol (rhs : IntanFile) st view pre :
  read_protocol st protocol = Some view ->
  dict_get "preprocessing" view = Some pre ->
  let pre' := if decide (trigger_timestamps rhs = []) then pre
              else dict_set "remove_artifacts"
                     [("list_triggers", PArray (trigger_timestamps rhs));
                      ("mode", PStr "zeros")] pre in
  let run := Pipeline_init sorter folder protocol (rhs, st) in
  exists self l,
    (Pipeline_new sorter folder protocol (rhs, st)).2 = Return self
    /\ store_extends st run.1.2
    /\ params_section "preprocessing" (_protocol self) run.1.2
       = (run.1.2, Return (l, pre')).
Proof.
  intros Hread Hpre pre' run. unfold run.
  destruct (pipeline_copy_state sorter folder protocol rhs st view pre Hread Hpre)
    as (st1 & copy & l & st2 & Hcopy & Hext & _ & _ & Hsection & Hnew & ->).
  set (self := mkPipeline sorter copy _ _) in *.
  exists self, l. rewrite Hnew. split; [done|].
  pose proof (keeps_store_pipeline_sorter_analyzer self (rhs, st2)) as Hkeep.
  destruct (Pipeline__pipeline_sorter_analyzer self (rhs, st2)) as [s3 [[]|e]];
    simpl in *; by rewrite Hkeep.
Qed.

(** X18: what the injection does to the preprocessing mapping of the
    pipeline's protocol, for every caller's mapping [pre]: without trigger
    timestamps the mapping is [pre], a [remove_artifacts] entry of the
    caller included; with trigger timestamps the entry is set to the
    trigger list, in the place of the caller's entry if there is one and
    after all other steps otherwise; every other step keeps its
    parameters. *)
Theorem injection_overwrites_or_appends
    sorter folder protocol (rhs : IntanFile) st view pre :
  read_protocol st protocol = Some view ->
  dict_get "preprocessing" view = Some pre ->
  let run := Pipeline_init sorter folder protocol (rhs, st) in
  exists self l pre',
    (Pipeline_new sorter folder protocol (rhs, st)).2 = Return self
    /\ params_section "preprocessing" (_protocol self) run.1.2
       = (run.1.2, Return (l, pre'))
    /\ (forall k, k <> "remove_artifacts" -> dict_get k pre' = dict_get k pre)
    /\ (trigger_timestamps rhs = [] -> pre' = pre)
    /\ (trigger_timestamps rhs <> [] ->
        dict_get "remove_artifacts" pre'
        = Some [("list_triggers", PArray (trigger_timestamps rhs));
                ("mode", PStr "zeros")]
        /\ dict_keys pre'
           = if decide ("remove_artifacts" ∈ dict_keys pre) then dict_keys pre
             else (dict_keys pre ++ ["remove_artifacts"])%list).
Proof.
  intros Hread Hpre run.
  destruct (pipeline_final_store sorter folder protocol rhs st view pre Hread Hpre)
    as (self & l & Hnew & _ & Hsection).
  eexists self, l, _. split; [done|]. split; [exact Hsection|].
  split; [|split].
  - intros k Hk. case_decide; [done|]. by apply dict_get_set_ne.
  - intros Hts. by rewrite decide_True.
  - intros Hts. rewrite decide_False by done.
    split; [apply dict_get_set_eq|apply dict_keys_set].
Qed.

(** X19: the mapping handed to the preprocessing engine is the one with
    the injected step: when the engine raises on the signed amplifier
    recording and that mapping, the run raises the same exception and
    nothing is stored on the session. *)
Theorem preprocessing_failure_stores_nothing
    sorter folder protocol (rhs : IntanFile) st view pre e :
  read_protocol st protocol = Some view ->
  dict_get "preprocessing" view = Some pre ->
  apply_preprocessing_pipeline (_signed_amplifier_channel_recording rhs)
    (if decide (trigger_timestamps rhs = []) then pre
     else dict_set "remove_artifacts"
            [("list_triggers", PArray (trigger_timestamps rhs));
             ("mode", PStr "zeros")] pre) = Raise e ->
  let run := Pipeline_init sorter folder protocol (rhs, st) in
  run.2 = Raise e /\ run.1.1 = rhs.
Proof.
  intros Hread Hpre Happly run. unfold run.
  destruct (pipeline_copy_state sorter folder protocol rhs st view pre Hread Hpre)
    as (st1 & copy & l & st2 & _ & _ & _ & _ & Hsection & _ & ->).
  unfold Pipeline__pipeline_sorter_analyzer, preprocess_sort_dedup, bind,
    get_state, on_store, lift_outcome. simpl.
  rewrite Hsection. simpl. by rewrite Happly.
Qed.

(** X20: pipelines built from one protocol do not see each other: after a
    first run, a second pipeline built from the same protocol starts from
    the caller's preprocessing mapping again, so that a step injected by
    the first run is not inherited by a run on a session without trigger
    timestamps. *)
Theorem second_pipeline_starts_from_caller_protocol
    sorter1 folder1 sorter2 folder2 protocol (rhs1 rhs2 : IntanFile) st view pre :
  read_protocol st protocol = Some view ->
  dict_get "preprocessing" view = Some pre ->
  let run1 := Pipeline_init sorter1 folder1 protocol (rhs1, st) in
  let run2 := Pipeline_init sorter2 folder2 protocol (rhs2, run1.1.2) in
  exists self2 l2,
    (Pipeline_new sorter2 folder2 protocol (rhs2, run1.1.2)).2 = Return self2
    /\ params_section "preprocessing" (_protocol self2) run2.1.2
       = (run2.1.2,
          Return (l2, if decide (trigger_timestamps rhs2 = []) then pre
                      else dict_set "remove_artifacts"
                             [("list_triggers", PArray (trigger_timestamps rhs2));
                              ("mode", PStr "zeros")] pre)).
Proof.
  intros Hread Hpre run1 run2.
  destruct (pipeline_final_store sorter1 folder1 protocol rhs1 st view pre
              Hread Hpre) as (_ & _ & _ & Hext & _).
  fold run1 in Hext.
  pose proof (read_protocol_extends _ _ _ _ Hext Hread) as Hread2.
  destruct (pipeline_final_store sorter2 folder2 protocol rhs2 run1.1.2 view pre
              Hread2 Hpre) as (self2 & l2 & Hnew & _ & Hsection).
  by exists self2, l2.
Qed.


(** The pipeline's copy after the injection, when the two sections of the
    caller's protocol are different mappings: the postprocessing section
    is the caller's. *)
Lemma pipeline_copy_sections sorter folder protocol (rhs : IntanFile) st view pre post :
  read_protocol st protocol = Some view ->
  dict_get "preprocessing" view = Some pre ->
  dict_get "postprocessing" view = Some post ->
  pre <> post ->
  let pre' := if decide (trigger_timestamps rhs = []) then pre
              else dict_set "remove_artifacts"
                     [("list_triggers", PArray (trigger_timestamps rhs));
                      ("mode", PStr "zeros")] pre in
  exists copy l l' st2,
    params_section "preprocessing" copy st2 = (st2, Return (l, pre'))
    /\ params_section "postprocessing" copy st2 = (st2, Return (l', post))
    /\ let self :=
         mkPipeline sorter copy
           (os_path_join folder ("Sorting_pipeline_" +:+ name sorter))
           (os_path_join folder ("Analyzer_binary_pipeline_" +:+ name sorter)) in
       Pipeline_init sorter folder protocol (rhs, st)
       = match Pipeline__pipeline_sorter_analyzer self (rhs, st2) with
         | (s3, Return _) => (s3, Return self)
         | (s3, Raise e) => (s3, Raise e)
         end.
Proof.
  intros Hread Hpre Hpost Hne pre'.
  destruct (deepcopy_copies _ _ _ Hread) as (st1 & copy & Hcopy & Hread1 & _).
  destruct (section_of_view _ _ _ _ _ Hread1 Hpre) as (d1 & l & Hd1 & Hl & Hsteps).
  destruct (section_of_view _ _ _ _ _ Hread1 Hpost)
    as (d1' & l' & Hd1' & Hl' & Hsteps').
  rewrite Hd1 in Hd1'. injection Hd1' as <-.
  assert (l <> l') as Hll by (intros <-; rewrite Hsteps in Hsteps'; congruence).
  destruct (Pipeline_init_unfold sorter folder protocol rhs st st1 copy Hcopy)
    as [_ Hinit].
  set (st2 := if decide (trigger_timestamps rhs = []) then st1
              else set_step_dicts (<[l := pre']> (step_dicts st1)) st1).
  assert (params_dicts st2 = params_dicts st1) as Hparams
    by (unfold st2; by case_decide).
  exists copy, l, l', st2. split; [|split].
  - unfold params_section, bind, get_state. simpl. rewrite Hparams, Hd1, Hl.
    assert (step_dicts st2 !! l = Some pre') as ->; [|done].
    unfold st2, pre'. case_decide; [done|]. simpl. by rewrite lookup_insert_eq.
  - unfold params_section, bind, get_state. simpl. rewrite Hparams, Hd1, Hl'.
    assert (step_dicts st2 !! l' = Some post) as ->; [|done].
    unfold st2. case_decide; [done|]. simpl. by rewrite lookup_insert_ne.
  - rewrite Hinit.
    rewrite (remove_artifacts_spec
               (mkPipeline sorter copy
                  (os_path_join folder ("Sorting_pipeline_" +:+ name sorter))
                  (os_path_join folder ("Analyzer_binary_pipeline_" +:+ name sorter)))
               rhs st1 d1 l pre Hd1 Hl Hsteps).
    unfold st2, pre'. by case_decide.
Qed.

(** X25: a protocol built by [Protocol.__init__] and then run: when the
    library calls return, the run returns, and the data goes from call to
    call as follows. The preprocessing engine gets the signed amplifier
    recording and the band-pass step, followed by the artifact step when
    there are trigger timestamps; the session's probe, if it has one, is
    set on the result; that recording goes to the sorter, with the folder
    [Sorting_pipeline_<name>], and to the analyzer, with the deduplicated
    sorting and the folder [Analyzer_binary_pipeline_<name>]; the
    analyzer computes the twelve postprocessing steps of the constructor;
    the recording, the deduplicated sorting and the computed analyzer are
    what the session holds in the end. *)
Theorem constructed_protocol_run_data_flow
    min_freq max_freq file_path sorter folder (rhs : IntanFile) st0
    rec0 rec sorting dedup created computed :
  let built := Protocol_init min_freq max_freq file_path st0 in
  let bandpass :=
    ("bandpass_filter",
     [("freq_min", PNum min_freq); ("freq_max", PNum max_freq)]) in
  let steps :=
    if decide (trigger_timestamps rhs = []) then [bandpass]
    else [bandpass;
          ("remove_artifacts",
           [("list_triggers", PArray (trigger_timestamps rhs));
            ("mode", PStr "zeros")])] in
  apply_preprocessing_pipeline (_signed_amplifier_channel_recording rhs) steps
  = Return rec0 ->
  match _probe rhs with
  | Some p => set_probe rec0 p
  | None => Return rec0
  end = Return rec ->
  run_sorter (name sorter) rec
    (os_path_join folder ("Sorting_pipeline_" +:+ name sorter)) = Return sorting ->
  remove_duplicated_spikes sorting = Return dedup ->
  create_sorting_analyzer rec dedup
    (os_path_join folder ("Analyzer_binary_pipeline_" +:+ name sorter))
  = Return created ->
  compute created postprocessing_steps = Return computed ->
  exists protocol self,
    built.2 = Return protocol
    /\ (Pipeline_init sorter folder protocol (rhs, built.1)).2 = Return self
    /\ (Pipeline_init sorter folder protocol (rhs, built.1)).1.1
       = set_computed_analyzer_result (Some computed)
           (set_sorting_dedup (Some dedup)
              (set_pre_processed_signed_amplifier_channel_recording
                 (Some rec) rhs)).
Proof.
  intros built bandpass steps Hpre Hprobe Hsort Hdedup Hcreate Hcompute.
  destruct (Protocol_init_view min_freq max_freq file_path st0)
    as (st & protocol & Hbuilt & _ & Hread & _).
  unfold built. rewrite Hbuilt. simpl. exists protocol.
  destruct (pipeline_copy_sections sorter folder protocol rhs st _ [bandpass]
              postprocessing_steps Hread eq_refl eq_refl ltac:(discriminate))
    as (copy & l & l' & st2 & Hsection & Hsection' & Hinit).
  cbv zeta in Hinit. rewrite Hinit. clear Hinit.
  set (self := mkPipeline sorter copy _ _).
  exists self.
  assert ((if decide (trigger_timestamps rhs = []) then [bandpass]
           else dict_set "remove_artifacts"
                  [("list_triggers", PArray (trigger_timestamps rhs));
                   ("mode", PStr "zeros")] [bandpass]) = steps) as Hsteps
    by (unfold steps; by case_decide).
  rewrite Hsteps in Hsection.
  assert (Pipeline__pipeline_sorter_analyzer self (rhs, st2)
          = ((set_computed_analyzer_result (Some computed)
                (set_sorting_dedup (Some dedup)
                   (set_pre_processed_signed_amplifier_channel_recording
                      (Some rec) rhs)), st2), Return tt)) as ->; [|done].
  unfold Pipeline__pipeline_sorter_analyzer, preprocess_sort_dedup, create_analyzer,
    try_except, bind, get_state, on_store, on_session, modify, lift_outcome.
  subst self. simpl. rewrite Hsection. simpl. rewrite Hpre.
  destruct (_probe rhs) as [p|]; simpl.
  - rewrite Hprobe. simpl. rewrite Hsort, Hdedup. simpl. rewrite Hcreate.
    simpl. rewrite Hsection'. simpl. by rewrite Hcompute.
  - injection Hprobe as <-. rewrite Hsort, Hdedup. simpl. rewrite Hcreate.
    simpl. rewrite Hsection'. simpl. by rewrite Hcompute.
Qed.

End PipelineFurther.

(** ** The page layout of the report *)

Section ReportLayout.

Lemma py_slice_chunks {A} (step m : nat) (l : list A) :
  (0 < step)%nat -> (length l <= m * step)%nat ->
  concat ((fun k => py_slice (k * step) (k * step + step) l) <$> seq 0 m) = l.
Proof.
  intros Hstep. revert l. induction m as [|m IH]; intros l Hlen.
  - simpl in *. destruct l; [done|simpl in Hlen; lia].
  - rewrite <- cons_seq, fmap_cons, <- fmap_S_seq, <- list_fmap_compose.
    cbn [concat]. unfold py_slice at 1. rewrite Nat.mul_0_l, Nat.add_0_l.
    rewrite Nat.sub_0_r, drop_0.
    etrans; [|apply (take_drop step l)]. f_equal.
    etrans; [|apply (IH (drop step l)); rewrite length_drop; lia].
    f_equal. apply list_fmap_ext. intros _ k _. simpl. unfold py_slice.
    rewrite drop_drop. f_equal. lia.
Qed.

Lemma py_range_bound stop step start :
  (0 < step)%nat -> start ∈ py_range stop step -> (start < stop)%nat.
Proof.
  intros Hstep. unfold py_range. rewrite list_elem_of_fmap.
  intros (k & -> & Hk). apply elem_of_seq in Hk as [_ Hk]. simpl in Hk.
  assert ((stop + step - 1) / step * step <= stop + step - 1)%nat
    by (rewrite Nat.mul_comm; apply Nat.Div0.mul_div_le).
  nia.
Qed.

(** X22: the chunks of unit ids given to the waveform pages, put end to
    end, are the unit ids, each once and in order; every chunk has
    between one and eight unit ids, and there are as many chunks as
    eights needed to cover the units. No page is drawn for no unit. *)
Theorem waveform_pages_partition_units (unit_ids : list pyval) :
  concat (waveform_page_chunks unit_ids) = unit_ids
  /\ Forall (fun chunk => (1 <= length chunk <= 8)%nat)
            (waveform_page_chunks unit_ids)
  /\ length (waveform_page_chunks unit_ids) = ((length unit_ids + 7) / 8)%nat.
Proof.
  unfold waveform_page_chunks, units_per_page, py_range.
  split; [|split].
  - rewrite <- list_fmap_compose.
    apply (py_slice_chunks 8); [lia|].
    assert (length unit_ids + 8 - 1
            < 8 * S ((length unit_ids + 8 - 1) / 8))%nat
      by (apply Nat.mul_succ_div_gt; lia).
    lia.
  - apply Forall_forall. intros chunk Hchunk.
    apply list_elem_of_fmap in Hchunk as (start & -> & Hstart).
    apply (py_range_bound _ 8) in Hstart; [|lia].
    unfold py_slice. rewrite length_take, length_drop. lia.
  - rewrite !length_fmap, length_seq. f_equal. lia.
Qed.




End ReportLayout.

(** ** The further properties on concrete runs *)

Lemma stored_timestamps_are_mask_steps_witness :
  exists (k : nat) a b,
    synthetic_signal !! k = Some a /\ synthetic_signal !! S k = Some b
    /\ (3 # 1000 == inject_Z (Z.of_nat k) / 1000)%Q
    /\ (inject_Z a < 35000)%Q /\ (35000 <= inject_Z b)%Q.
Proof.
  destruct (stored_timestamps_are_mask_steps (L := test_library)
              synthetic_session falling_trigger (PyStr "ANALOG-IN-1")
              eq_refl ltac:(simpl; lia) ltac:(simpl; lia)) as [Hsound _].
  destruct (Hsound (3 # 1000)%Q) as (k & a & b & Hq & Ha & Hb & _ & Hdown & _).
  { vm_compute. left. }
  destruct (Hdown eq_refl) as [Hlt Hle].
  exists k, a, b. rewrite Hq. repeat split; try done.
Defined.


Lemma one_sided_signal_detects_nothing_witness :
  trigger_timestamps
    (generate_trigger_timestamps (L := test_library)
       (mkTimestampsParameters (mkTrigger 50000 (-1) 0) 0) synthetic_session).1
  = [].
Proof.
  apply (one_sided_signal_detects_nothing (L := test_library)
           synthetic_session (mkTimestampsParameters (mkTrigger 50000 (-1) 0) 0)
           (PyStr "ANALOG-IN-1") eq_refl);
    [simpl; lia|simpl; lia|simpl; lia|].
  left. repeat constructor.
Defined.

Lemma stored_timestamps_within_recording_witness :
  Forall (fun q => (0 <= q)%Q
                  /\ (q < inject_Z (len burst_signal - 1) / 1000)%Q)
         (trigger_timestamps
            (generate_trigger_timestamps (L := test_library)
               debounced_trigger burst_session).1)
  /\ (length (trigger_timestamps
                (generate_trigger_timestamps (L := test_library)
                   debounced_trigger burst_session).1)
      <= Nat.pred (length burst_signal))%nat.
Proof.
  apply (stored_timestamps_within_recording (L := test_library)
           burst_session debounced_trigger (PyStr "ANALOG-IN-1") eq_refl);
    [simpl; lia|simpl; lia|reflexivity].
Defined.

Lemma rising_and_falling_counts_differ_by_one_witness :
  Z.abs (len (trigger_timestamps
                (generate_trigger_timestamps (L := test_library)
                   rising_trigger burst_session).1)
         - len (trigger_timestamps
                  (generate_trigger_timestamps (L := test_library)
                     falling_trigger burst_session).1)) <= 1.
Proof.
  apply (rising_and_falling_counts_differ_by_one (L := test_library)
           burst_session rising_trigger falling_trigger (PyStr "ANALOG-IN-1")
           eq_refl);
    first [reflexivity | simpl; lia | done].
Defined.

Lemma detection_writes_two_fields_witness :
  let run :=
    generate_trigger_timestamps (L := test_library)
      (mkTimestampsParameters (mkTrigger 35000 (-1) 0) 5) triggered_session in
  _timestamps_parameters run.1
  = Some (mkTimestampsParameters (mkTrigger 35000 (-1) 0) 5)
  /\ trigger_timestamps run.1 = [(3 # 1000)%Q].
Proof.
  intros run.
  destruct (detection_writes_two_fields (L := test_library) triggered_session
              (mkTimestampsParameters (mkTrigger 35000 (-1) 0) 5))
    as (Hparams & Hraise & _).
  split; [exact Hparams|].
  destruct (Hraise
              (Exn ValueError
                 "trigger_channel_index=5 is out of range for 1 ADC channels."
                 None) eq_refl) as [_ Hts].
  exact Hts.
Defined.

Lemma stored_timestamps_pairwise_apart_witness :
  let stored :=
    trigger_timestamps
      (generate_trigger_timestamps (L := test_library)
         debounced_trigger burst_session).1 in
  stored !! 0%nat = Some (1 # 1000)%Q
  /\ stored !! 1%nat = Some (28 # 1000)%Q
  /\ (1 # 100 <= (28 # 1000) - (1 # 1000))%Q.
Proof.
  intros stored. split; [reflexivity|]. split; [reflexivity|].
  apply (stored_timestamps_pairwise_apart (L := test_library)
           burst_session debounced_trigger (PyStr "ANALOG-IN-1") eq_refl
           ltac:(simpl; lia) ltac:(simpl; lia) eq_refl 0%nat 1%nat);
    [lia|reflexivity|reflexivity].
Defined.

Lemma count_mismatch_iff_not_one_to_one_witness :
  let run :=
    associate_probe (L := test_library) example_probe
      (four_channel_session, store_with_table three_contact_table) in
  run.2 = Raise (Exn ValueError (mismatch_message 3 4) None)
  /\ files run.1.2 = files (store_with_table three_contact_table).
Proof.
  intros run.
  destruct (count_mismatch_iff_not_one_to_one (L := test_library)
              four_channel_session (store_with_table three_contact_table)
              example_probe three_contact_table eq_refl) as [Hrefused _].
  destruct Hrefused as (_ & Hraise & Hfiles).
  - intros [_ Hall].
    assert (PyStr "3" ∉ [PyStr "0"; PyStr "1"; PyStr "2"]) as Hnot
      by (apply (bool_decide_unpack _); vm_compute; exact I).
    apply Hnot, (Hall (PyStr "3")).
    apply (bool_decide_unpack _); vm_compute; exact I.
  - split; [exact Hraise|exact Hfiles].
Defined.

Lemma aligned_contacts_are_the_channels_witness :
  let aligned := [mkRow (PyStr "2") 0 [("x", PyInt 40)];
                  mkRow (PyStr "1") 1 [("x", PyInt 20)]] in
  files (associate_probe (L := test_library) example_probe
           (synthetic_session, store_with_table three_contact_table)).1.2
    !! "probe_dataframe_dump.txt" = Some aligned
  /\ contact_ids <$> aligned ≡ₚ [PyStr "1"; PyStr "2"]
  /\ NoDup (contact_ids <$> aligned)
  /\ length aligned = 2%nat.
Proof.
  intros aligned.
  apply (aligned_contacts_are_the_channels (L := test_library)
           synthetic_session (store_with_table three_contact_table)
           example_probe three_contact_table aligned);
    [exact insertion_sort_perm|reflexivity|reflexivity].
Defined.

Lemma associate_probe_touches_probe_only_witness :
  let st :=
    set_frames (<[2%positive := integer_contact_table]>
                  (frames (store_with_table three_contact_table)))
               (store_with_table three_contact_table) in
  let run :=
    associate_probe (L := test_library) example_probe (synthetic_session, st) in
  frames run.1.2 !! 2%positive = Some integer_contact_table
  /\ files run.1.2 !! "other.txt" = None.
Proof.
  intros st run.
  destruct (associate_probe_touches_probe_only (L := test_library)
              synthetic_session st example_probe)
    as (_ & _ & _ & Hframes & Hfiles).
  split.
  - etrans; [apply (Hframes 2%positive); discriminate|reflexivity].
  - etrans; [apply (Hfiles "other.txt"); discriminate|reflexivity].
Defined.

Lemma associate_probe_repeatable_witness :
  let run1 :=
    associate_probe (L := test_library) example_probe
      (four_channel_session, store_with_table three_contact_table) in
  let run2 := associate_probe (L := test_library) example_probe run1.1 in
  run2.1.2 = run1.1.2
  /\ run2.2 = Raise (Exn ValueError (mismatch_message 3 4) None).
Proof.
  intros run1 run2.
  destruct (associate_probe_repeatable (L := test_library)
              four_channel_session (store_with_table three_contact_table)
              example_probe three_contact_table eq_refl)
    as (Hstore & _ & Hraise).
  split; [exact Hstore|].
  exact (proj2 (Hraise (Exn ValueError (mismatch_message 3 4) None) eq_refl)).
Defined.

Lemma probe_construction_fails_after_dump_witness :
  let aligned := [mkRow (PyStr "2") 0 [("x", PyInt 40)];
                  mkRow (PyStr "1") 1 [("x", PyInt 20)]] in
  let run :=
    associate_probe (L := failing_probe_library) example_probe
      (synthetic_session, store_with_table three_contact_table) in
  run.2 = Raise probe_error
  /\ files run.1.2 !! "probe_dataframe_dump.txt" = Some aligned
  /\ run.1.1 = set_probe_field (L := failing_probe_library)
                 (Some (WrapperProbe example_probe)) synthetic_session.
Proof.
  intros aligned run.
  apply (probe_construction_fails_after_dump (L := failing_probe_library)
           synthetic_session (store_with_table three_contact_table)
           example_probe three_contact_table aligned probe_error);
    reflexivity.
Defined.

Lemma missing_preprocessing_key_rejected_witness :
  let run :=
    Pipeline_init (L := test_library) example_sorter "out" example_protocol
      (triggered_session, store_without_preprocessing) in
  run.2 = Raise (Exn KeyError "'preprocessing'" None)
  /\ run.1.1 = triggered_session.
Proof.
  apply (missing_preprocessing_key_rejected (L := test_library)
           example_sorter "out" example_protocol triggered_session
           store_without_preprocessing
           [("postprocessing", postprocessing_steps)]);
    reflexivity.
Defined.

Lemma missing_postprocessing_key_rejected_witness :
  let run :=
    Pipeline_init (L := test_library) example_sorter "out" example_protocol
      (synthetic_session, store_without_postprocessing) in
  run.2 = Raise (Exn KeyError "'postprocessing'" None)
  /\ is_Some (_pre_processed_signed_amplifier_channel_recording run.1.1)
  /\ is_Some (_sorting_dedup run.1.1)
  /\ _computed_analyzer_result run.1.1 = None.
Proof.
  intros run.
  destruct (missing_postprocessing_key_rejected (L := test_library)
              example_sorter "out" example_protocol synthetic_session
              store_without_postprocessing
              [("preprocessing",
                [("bandpass_filter",
                  [("freq_min", PNum 400); ("freq_max", PNum 5000)])])]
              [("bandpass_filter",
                [("freq_min", PNum 400); ("freq_max", PNum 5000)])]
              eq_refl eq_refl eq_refl) as (_ & Hanalyzer & Hreturning).
  destruct Hreturning as (Hraise & Hrec & Hdedup).
  - intros r d. by exists r.
  - intros r p. by exists r.
  - intros n r f. by eexists.
  - intros s. by exists s.
  - intros r s f. by eexists.
  - split; [exact Hraise|]. split; [exact Hrec|]. split; [exact Hdedup|].
    exact Hanalyzer.
Defined.

Lemma injection_overwrites_or_appends_witness :
  exists self l pre',
    params_section "preprocessing" (_protocol self)
      (Pipeline_init (L := test_library) example_sorter "out" example_protocol
         (triggered_session, example_protocol_store)).1.2
    = ((Pipeline_init (L := test_library) example_sorter "out" example_protocol
          (triggered_session, example_protocol_store)).1.2,
       Return (l, pre'))
    /\ dict_keys pre' = ["bandpass_filter"; "remove_artifacts"]
    /\ dict_get "bandpass_filter" pre'
       = Some [("freq_min", PNum 400); ("freq_max", PNum 5000)].
Proof.
  destruct (injection_overwrites_or_appends (L := test_library)
              example_sorter "out" example_protocol triggered_session
              example_protocol_store
              [("preprocessing",
                [("bandpass_filter",
                  [("freq_min", PNum 400); ("freq_max", PNum 5000)])]);
               ("postprocessing", postprocessing_steps)]
              [("bandpass_filter",
                [("freq_min", PNum 400); ("freq_max", PNum 5000)])]
              eq_refl eq_refl)
    as (self & l & pre' & _ & Hsection & Hother & _ & Hstep).
  exists self, l, pre'. split; [exact Hsection|]. split.
  - destruct Hstep as [_ Hkeys]; [discriminate|]. exact Hkeys.
  - etrans; [apply (Hother "bandpass_filter"); discriminate|reflexivity].
Defined.

Lemma preprocessing_failure_stores_nothing_witness :
  let run :=
    Pipeline_init (L := failing_preprocessing_library) example_sorter "out"
      example_protocol (triggered_session, example_protocol_store) in
  run.2 = Raise preprocessing_error /\ run.1.1 = triggered_session.
Proof.
  apply (preprocessing_failure_stores_nothing
           (L := failing_preprocessing_library)
           example_sorter "out" example_protocol triggered_session
           example_protocol_store
           [("preprocessing",
             [("bandpass_filter",
               [("freq_min", PNum 400); ("freq_max", PNum 5000)])]);
            ("postprocessing", postprocessing_steps)]
           [("bandpass_filter",
             [("freq_min", PNum 400); ("freq_max", PNum 5000)])]
           preprocessing_error);
    reflexivity.
Defined.

Lemma second_pipeline_starts_from_caller_protocol_witness :
  let run1 :=
    Pipeline_init (L := test_library) example_sorter "out" example_protocol
      (triggered_session, example_protocol_store) in
  let run2 :=
    Pipeline_init (L := test_library) example_sorter "out2" example_protocol
      (synthetic_session, run1.1.2) in
  exists self2 l2,
    (Pipeline_new (L := test_library) example_sorter "out2" example_protocol
       (synthetic_session, run1.1.2)).2 = Return self2
    /\ params_section "preprocessing" (_protocol self2) run2.1.2
       = (run2.1.2,
          Return (l2, [("bandpass_filter",
                        [("freq_min", PNum 400); ("freq_max", PNum 5000)])])).
Proof.
  apply (second_pipeline_starts_from_caller_protocol (L := test_library)
           example_sorter "out" example_sorter "out2" example_protocol
           triggered_session synthetic_session example_protocol_store
           [("preprocessing",
             [("bandpass_filter",
               [("freq_min", PNum 400); ("freq_max", PNum 5000)])]);
            ("postprocessing", postprocessing_steps)]
           [("bandpass_filter",
             [("freq_min", PNum 400); ("freq_max", PNum 5000)])]);
    reflexivity.
Defined.




Lemma constructed_protocol_run_data_flow_witness :
  let run :=
    Pipeline_init (L := test_library) example_sorter "out" example_protocol
      (triggered_session, example_protocol_store) in
  _pre_processed_signed_amplifier_channel_recording run.1.1
  = Some two_channel_amplifier
  /\ _computed_analyzer_result run.1.1 = Some (dict_keys postprocessing_steps).
Proof.
  intros run.
  destruct (constructed_protocol_run_data_flow (L := test_library)
              400 5000 "my_protocol.json" example_sorter "out"
              triggered_session empty_store
              two_channel_amplifier two_channel_amplifier
              (@nil (list Z)) (@nil (list Z)) (@nil string)
              (dict_keys postprocessing_steps)
              eq_refl eq_refl eq_refl eq_refl eq_refl eq_refl)
    as (protocol & self & Hbuilt & _ & Hsession).
  vm_compute in Hbuilt. injection Hbuilt as <-.
  split.
  - exact (f_equal (_pre_processed_signed_amplifier_channel_recording
                      (L := test_library)) Hsession).
  - exact (f_equal (_computed_analyzer_result (L := test_library)) Hsession).
Defined.
